(** * Profile screen of gym-mobile: validation schema and the two workflows

    Shallow embedding of [src/screens/Profile.tsx]:
    - [profileSchema], the yup schema behind the form, together with the part
      of yup 1.x it exercises (string schemas, [min], [nullable], [required],
      [transform], [oneOf] over a [ref], [when]);
    - [handleUserPhotoSelect] and [handleProfileUpdate], written in a small
      state-and-completion monad over a store that holds the live user object.

    The schema uses the function form [then: (schema) => ...], the form yup
    1.x requires, so the semantics below is the one of yup 1.x. *)

From Stdlib Require Import QArith Ascii String.
From stdpp Require Import base option list gmap strings.

Open Scope string_scope.
Open Scope list_scope.
Open Scope N_scope.

(** ** JavaScript strings and values *)

(** A JavaScript string is a sequence of UTF-16 code units; [length] counts
    code units, and [===] compares the sequences. *)
Abbreviation jsstring := (list N).

(** String literals of the source are written as Rocq strings (UTF-8 bytes in
    this file) and decoded to code units. One-, two- and three-byte sequences
    cover every literal of the screen. *)
Fixpoint utf16 (bytes : list N) : jsstring :=
  match bytes with
  | [] => []
  | b :: rest =>
      if b <? 128 then b :: utf16 rest
      else
        match rest with
        | [] => [b]
        | c :: rest1 =>
            if b <? 224 then ((b mod 32) * 64 + c mod 64) :: utf16 rest1
            else
              match rest1 with
              | [] => [b; c]
              | d :: rest2 =>
                  ((b mod 16) * 4096 + (c mod 64) * 64 + d mod 64) :: utf16 rest2
              end
        end
  end.

Definition lit (s : string) : jsstring :=
  utf16 (map N_of_ascii (list_ascii_of_string s)).

(** The values a form field, a user field or a response field can hold. *)
Inductive val :=
| Undefined
| Null
| Str (s : jsstring).

#[global] Instance val_eq_dec : EqDecision val.
Proof. solve_decision. Defined.

(** [!!value] *)
Definition truthy (v : val) : bool :=
  match v with
  | Str (_ :: _) => true
  | _ => false
  end.

(** [value == null] *)
Definition isAbsent (v : val) : bool :=
  match v with
  | Str _ => false
  | _ => true
  end.

(** [`${v}`] *)
Definition ToString (v : val) : jsstring :=
  match v with
  | Undefined => lit "undefined"
  | Null => lit "null"
  | Str s => s
  end.

(** ** The form payload *)

Module FormDataProps.

Record t := mk {
  name : val;
  email : val;
  old_password : val;
  password : val;
  confirm_password : val;
}.

(** Property names, for access by key ([yup.ref('password')], paths of
    validation errors). *)
Inductive Key := Name | Email | Old_password | Password | Confirm_password.

#[global] Instance Key_eq_dec : EqDecision Key.
Proof. solve_decision. Defined.

Definition get (k : Key) (d : t) : val :=
  match k with
  | Name => name d
  | Email => email d
  | Old_password => old_password d
  | Password => password d
  | Confirm_password => confirm_password d
  end.

Definition set (k : Key) (v : val) (d : t) : t :=
  match k with
  | Name => mk v (email d) (old_password d) (password d) (confirm_password d)
  | Email => mk (name d) v (old_password d) (password d) (confirm_password d)
  | Old_password => mk (name d) (email d) v (password d) (confirm_password d)
  | Password => mk (name d) (email d) (old_password d) v (confirm_password d)
  | Confirm_password => mk (name d) (email d) (old_password d) (password d) v
  end.

(** [{}]: a property that is absent reads as [undefined]. *)
Definition empty : t := mk Undefined Undefined Undefined Undefined Undefined.

(** [Object.keys] of a form payload, in the order of the type. *)
Definition keys : list Key :=
  [Name; Email; Old_password; Password; Confirm_password].

End FormDataProps.

Import FormDataProps (Key, Name, Email, Old_password, Password, Confirm_password).

(** ** The part of yup 1.x that [profileSchema] uses *)

Module yup.

(** A message given by the caller, or one of yup's locale templates (named
    by its key). *)
Inductive Message :=
| Custom (text : jsstring)
| Locale (key : string).

(** An entry of a whitelist: a literal value or [yup.ref(key)]. *)
Inductive Enum :=
| EVal (v : val)
| ERef (k : Key).

Record Spec := { spec_nullable : bool; spec_optional : bool }.

(** What a test reads through [this]: the parent object (to resolve
    references), and the spec and whitelist of the schema being validated. *)
Record TestContext := {
  ctx_parent : FormDataProps.t;
  ctx_spec : Spec;
  ctx_whitelist : list Enum;
}.

(** [createValidation({ name, message, skipAbsent, test })] *)
Record Test := {
  test_name : string;
  test_message : Message;
  test_exclusive : bool;
  test_skipAbsent : bool;
  test_fn : TestContext -> val -> bool;
}.

(** A schema without conditions. [internalTests] is the object yup keeps
    under that name: an entry is replaced in place when its key exists and
    appended otherwise, and the tests run in that order. *)
Record Schema := {
  transforms : list (val -> val);
  spec : Spec;
  internalTests : list (string * Test);
  tests : list Test;
  whitelist : list Enum;
}.

Definition with_spec (sp : Spec) (s : Schema) : Schema :=
  {| transforms := transforms s; spec := sp;
     internalTests := internalTests s; tests := tests s;
     whitelist := whitelist s |}.

Fixpoint set_entry (k : string) (t : Test) (l : list (string * Test))
  : list (string * Test) :=
  match l with
  | [] => [(k, t)]
  | (k', t') :: l' =>
      if String.eqb k k' then (k, t) :: l' else (k', t') :: set_entry k t l'
  end.

Definition with_internalTest (k : string) (t : Test) (s : Schema) : Schema :=
  {| transforms := transforms s; spec := spec s;
     internalTests := set_entry k t (internalTests s); tests := tests s;
     whitelist := whitelist s |}.

(** [ref.getValue(value, parent, context)] for a sibling reference *)
Definition resolve_enum (parent : FormDataProps.t) (e : Enum) : val :=
  match e with
  | EVal v => v
  | ERef k => FormDataProps.get k parent
  end.

(** [typeof value === 'string'] *)
Definition string_typeCheck (v : val) : bool :=
  match v with
  | Str _ => true
  | _ => false
  end.

(** [typeError(message)] *)
Definition typeError (message : Message) (s : Schema) : Schema :=
  with_internalTest "typeError"
    {| test_name := "typeError"; test_message := message;
       test_exclusive := false; test_skipAbsent := true;
       test_fn := fun _ v => string_typeCheck v |} s.

(** [nullability(nullable, message)]: the test reads the spec of the schema
    it runs on, not the one it was created on. *)
Definition nullability (nullable : bool) (message : Message) (s : Schema)
  : Schema :=
  with_internalTest "nullable"
    {| test_name := "nullable"; test_message := message;
       test_exclusive := false; test_skipAbsent := false;
       test_fn := fun ctx v =>
         match v with
         | Null => spec_nullable (ctx_spec ctx)
         | _ => true
         end |}
    (with_spec {| spec_nullable := nullable;
                  spec_optional := spec_optional (spec s) |} s).

(** [optionality(optional, message)] *)
Definition optionality (optional : bool) (message : Message) (s : Schema)
  : Schema :=
  with_internalTest "optionality"
    {| test_name := "optionality"; test_message := message;
       test_exclusive := false; test_skipAbsent := false;
       test_fn := fun ctx v =>
         match v with
         | Undefined => spec_optional (ctx_spec ctx)
         | _ => true
         end |}
    (with_spec {| spec_nullable := spec_nullable (spec s);
                  spec_optional := optional |} s).

Definition nullable (s : Schema) : Schema :=
  nullability true (Locale "mixed.notNull") s.

Definition nonNullable (message : Message) (s : Schema) : Schema :=
  nullability false message s.

Definition defined (message : Message) (s : Schema) : Schema :=
  optionality false message s.

(** [schema.test(opts)]: an exclusive test replaces the tests of its name. *)
Definition test (t : Test) (s : Schema) : Schema :=
  {| transforms := transforms s; spec := spec s;
     internalTests := internalTests s;
     tests :=
       filter (fun t' => negb (test_exclusive t
                               && String.eqb (test_name t') (test_name t))
                         = true)
              (tests s) ++ [t];
     whitelist := whitelist s |}.

Definition transform (fn : val -> val) (s : Schema) : Schema :=
  {| transforms := transforms s ++ [fn]; spec := spec s;
     internalTests := internalTests s; tests := tests s;
     whitelist := whitelist s |}.

(** [yup.string()]: the base constructor installs [typeError] and
    [nonNullable()], the string schema adds its coercion, which leaves
    strings and [null] as they are. *)
Definition string_coerce (v : val) : val :=
  if string_typeCheck v then v else v.

Definition string : Schema :=
  transform string_coerce
    (nonNullable (Locale "mixed.notNull")
       (typeError (Locale "mixed.notType")
          {| transforms := [];
             spec := {| spec_nullable := false; spec_optional := true |};
             internalTests := []; tests := []; whitelist := [] |})).

(** [string().min(min, message)] *)
Definition min (n : nat) (message : jsstring) (s : Schema) : Schema :=
  test {| test_name := "min"; test_message := Custom message;
          test_exclusive := true; test_skipAbsent := true;
          test_fn := fun _ v =>
            match v with
            | Str x => (n <=? length x)%nat
            | _ => true
            end |} s.

(** [string().required(message)]: [nonNullable], [defined], and a test on
    the length. *)
Definition required (message : jsstring) (s : Schema) : Schema :=
  test {| test_name := "required"; test_message := Custom message;
          test_exclusive := false; test_skipAbsent := true;
          test_fn := fun _ v =>
            match v with
            | Str x => negb (length x =? 0)%nat
            | _ => true
            end |}
    (defined (Custom message) (nonNullable (Custom message) s)).

(** [array.includes(value)] *)
Definition includes (l : list val) (v : val) : bool := bool_decide (v ∈ l).

(** [oneOf(enums, message)]: skipped for an absent value. *)
Definition oneOf (enums : list Enum) (message : jsstring) (s : Schema)
  : Schema :=
  with_internalTest "whiteList"
    {| test_name := "oneOf"; test_message := Custom message;
       test_exclusive := false; test_skipAbsent := true;
       test_fn := fun ctx v =>
         includes (map (resolve_enum (ctx_parent ctx)) (ctx_whitelist ctx))
           v |}
    {| transforms := transforms s; spec := spec s;
       internalTests := internalTests s; tests := tests s;
       whitelist := whitelist s ++ enums |}.

(** A schema with its [when] conditions. The branches of a condition are
    functions on schemas and get the schema with its conditions removed, so
    the two are kept as two types. *)
Record Condition := {
  cond_ref : Key;
  cond_is : val -> bool;
  cond_then : option (Schema -> Schema);
  cond_otherwise : option (Schema -> Schema);
}.

Record Field := {
  base : Schema;
  conditions : list Condition;
}.

Definition plain (s : Schema) : Field := {| base := s; conditions := [] |}.

(** [schema.when(key, { is, then })] *)
Definition when (k : Key) (is_ : val -> bool) (then_ : Schema -> Schema)
    (s : Schema) : Field :=
  {| base := s;
     conditions := [ {| cond_ref := k; cond_is := is_;
                        cond_then := Some then_;
                        cond_otherwise := None |} ] |}.

(** [schema.resolve({ value, parent })] *)
Definition resolve (f : Field) (parent : FormDataProps.t) : Schema :=
  fold_left
    (fun s c =>
       let branch :=
         if cond_is c (FormDataProps.get (cond_ref c) parent)
         then cond_then c else cond_otherwise c in
       match branch with
       | Some fn => fn s
       | None => s
       end)
    (conditions f) (base f).

(** [schema._cast(rawValue)]: the transforms are not applied to
    [undefined], and the schemas here have no default. *)
Definition _cast (s : Schema) (rawValue : val) : val :=
  match rawValue with
  | Undefined => Undefined
  | _ => fold_left (fun prevValue fn => fn prevValue) (transforms s) rawValue
  end.

Record ValidationError := {
  path : Key;
  type : String.string;
  message : Message;
}.

#[global] Instance Message_eq_dec : EqDecision Message.
Proof. solve_decision. Defined.

(** [runTests] with [abortEarly: false]: every test runs, the failures are
    collected in the order of the tests. *)
Definition runTests (ctx : TestContext) (k : Key) (value : val)
    (ts : list Test) : list ValidationError :=
  flat_map
    (fun t =>
       if test_skipAbsent t && isAbsent value then []
       else if test_fn t ctx value then []
       else [ {| path := k; type := test_name t;
                 message := test_message t |} ])
    ts.

(** [schema._validate(value, { strict: true, parent })] of a nested field:
    the internal tests first, and the other tests only when these pass. *)
Definition _validate (s : Schema) (parent : FormDataProps.t) (k : Key)
    (value : val) : list ValidationError :=
  let ctx := {| ctx_parent := parent; ctx_spec := spec s;
                ctx_whitelist := whitelist s |} in
  match runTests ctx k value (map snd (internalTests s)) with
  | [] => runTests ctx k value (tests s)
  | initialErrors => initialErrors
  end.

(** An object schema over the form payload: its fields in the order they
    are written, and [_nodes], the fields sorted so that a field comes after
    the ones its conditions depend on. *)
Record ObjectSchema := {
  fields : list (Key * Field);
  _nodes : list Key;
}.

Definition field_of (o : ObjectSchema) (k : Key) : option Field :=
  snd <$> List.find (fun kf => bool_decide (fst kf = k)) (fields o).

(** [object._cast]: the fields are cast in the order of [_nodes], each
    resolved against the properties cast so far; the properties without a
    schema are copied. *)
Definition object_cast (o : ObjectSchema) (value : FormDataProps.t)
  : FormDataProps.t :=
  let props :=
    _nodes o ++ filter (fun k => k ∉ _nodes o) FormDataProps.keys in
  fold_left
    (fun intermediateValue prop =>
       let inputValue := FormDataProps.get prop value in
       match field_of o prop with
       | Some field =>
           FormDataProps.set prop
             (_cast (resolve field intermediateValue) inputValue)
             intermediateValue
       | None => FormDataProps.set prop inputValue intermediateValue
       end)
    props FormDataProps.empty.

(** [object.validate(value, { abortEarly: false })]: the cast value and the
    errors of the fields, each field validated against the cast object. The
    final sort of the errors by field is left out: it only reorders errors
    of different paths. *)
Definition validate (o : ObjectSchema) (value : FormDataProps.t)
  : FormDataProps.t * list ValidationError :=
  let value' := object_cast o value in
  (value',
   flat_map
     (fun k =>
        match field_of o k with
        | Some field =>
            _validate (resolve field value') value' k
              (FormDataProps.get k value')
        | None => []
        end)
     (_nodes o)).

End yup.

(** ** The schema of the screen *)

Notation "x |> f" := (f x) (at level 45, left associativity, only parsing).

(** [(value) => (!!value ? value : null)] *)
Definition empty_to_null (value : val) : val :=
  if truthy value then value else Null.

Definition profileSchema : yup.ObjectSchema :=
  {| yup.fields :=
       [ (Name,
          yup.plain (yup.string |> yup.required (lit "Informe o nome.")));
         (Password,
          yup.plain
            (yup.string
             |> yup.min 6 (lit "A nova senha deve ter pelo menos 6 dígitos.")
             |> yup.nullable
             |> yup.transform empty_to_null));
         (Confirm_password,
          yup.string
          |> yup.nullable
          |> yup.transform empty_to_null
          |> yup.oneOf [yup.ERef Password]
               (lit "A confirmação da nova senha não confere.")
          |> yup.when Password (fun Field => truthy Field)
               (fun schema =>
                  schema
                  |> yup.nullable
                  |> yup.required (lit "Informe a confirmação da senha.")
                  |> yup.transform empty_to_null)) ];
     (* confirm_password depends on password; yup's sort of the three
        fields yields this order *)
     yup._nodes := [Password; Confirm_password; Name] |}.

(** [yupResolver(profileSchema)]: the form keeps, for each field, the first
    error reported at its path. *)
Definition errors_of (errs : list yup.ValidationError) (k : Key)
  : option yup.ValidationError :=
  List.find (fun e => bool_decide (yup.path e = k)) errs.

Definition field_error (data : FormDataProps.t) (k : Key)
  : option yup.ValidationError :=
  errors_of (snd (yup.validate profileSchema data)) k.

(** The errors the schema attaches to the two password fields. *)
Definition too_short_error : yup.ValidationError :=
  {| yup.path := Password; yup.type := "min";
     yup.message :=
       yup.Custom (lit "A nova senha deve ter pelo menos 6 dígitos.") |}.

Definition mismatch_message : yup.Message :=
  yup.Custom (lit "A confirmação da nova senha não confere.").

Definition mismatch_error : yup.ValidationError :=
  {| yup.path := Confirm_password; yup.type := "oneOf";
     yup.message := mismatch_message |}.

Definition confirmation_required_message : yup.Message :=
  yup.Custom (lit "Informe a confirmação da senha.").

(** ** The collaborators of the screen *)

(** The user object of the session ([UserDTO] is declared outside the
    sources; the fields are the ones the specification lists). *)
Module UserDTO.

Record t := mk {
  id : val;
  name : val;
  email : val;
  avatar : val;
}.

Definition set_name (v : val) (u : t) : t := mk (id u) v (email u) (avatar u).
Definition set_avatar (v : val) (u : t) : t := mk (id u) (name u) (email u) v.

End UserDTO.

(** What a rejected promise or a [throw] carries: an [AppError] with its
    message, or anything else ([error instanceof AppError] is false). *)
Inductive Error :=
| AppError (message : jsstring)
| OtherError (what : string).

(** A settled promise. *)
Inductive Outcome (A : Type) :=
| Resolve (a : A)
| Reject (e : Error).
Arguments Resolve {A} a.
Arguments Reject {A} e.

Record ImagePickerOptions := {
  mediaTypes : string;
  quality : N;
  aspect : N * N;
  allowsEditing : bool;
}.

Record ImagePickerAsset := {
  asset_uri : jsstring;
  asset_type : val;
}.

(** [assets] is read only when [canceled] is false; [null] and the empty
    array are one case here, [assets[0].uri] throws a [TypeError] on both. *)
Record ImagePickerResult := {
  canceled : bool;
  assets : list ImagePickerAsset;
}.

(** [FileSystem.FileInfo & { size?: number }]: the size is a count of bytes. *)
Record FileInfo := {
  exists_ : bool;
  size : option Z;
}.

Record PhotoFile := {
  file_name : jsstring;
  file_uri : jsstring;
  file_type : jsstring;
}.

(** [FormData]: the appended entries, in order. *)
Abbreviation FormData := (list (jsstring * PhotoFile)).

Record RequestConfig := {
  headers : list (jsstring * jsstring);
}.

Record ResponseData := { data_avatar : val }.
Record AxiosResponse := { data : ResponseData }.

Record Toast := {
  title : jsstring;
  placement : jsstring;
  bgColor : jsstring;
}.

(** References to objects in the store. *)
Abbreviation loc := nat.

(** The calls the screen makes to its collaborators, as they are issued. *)
Inductive Event :=
| LaunchImageLibrary (options : ImagePickerOptions)
| GetInfo (uri : jsstring)
| ApiPatch (url : jsstring) (body : FormData) (config : RequestConfig)
| ApiPut (url : jsstring) (body : FormDataProps.t)
| UpdateUserProfile (ref : loc) (snapshot : UserDTO.t)
| ToastShow (t : Toast)
| ConsoleLog (label : jsstring) (snapshot : UserDTO.t).

(** A call to the remote API. *)
Definition is_remote_call (e : Event) : bool :=
  match e with
  | ApiPatch _ _ _ | ApiPut _ _ => true
  | _ => false
  end.

Definition is_toast (e : Event) : bool :=
  match e with
  | ToastShow _ => true
  | _ => false
  end.

(** What the environment answers to the awaited calls, and the one built-in
    whose Unicode tables are not modelled. *)
Record Env := {
  launchImageLibraryAsync : ImagePickerOptions -> Outcome ImagePickerResult;
  getInfoAsync : jsstring -> Outcome FileInfo;
  api_patch : jsstring -> FormData -> RequestConfig -> Outcome AxiosResponse;
  api_put : jsstring -> FormDataProps.t -> Outcome unit;
  updateUserProfile_settles : UserDTO.t -> Outcome unit;
  toLowerCase : jsstring -> jsstring;
}.

(** The state the handlers act on. [heap] is the store of user objects;
    [session_user] is the reference the session (the auth context) holds, the
    one [useAuth()] hands to the screen as [user]. [isUpdating] and
    [photoIsLoading] are the two [useState] cells, [calls] the calls issued so
    far, [formErrors] the errors of the last submit. *)
Record State := {
  heap : gmap loc UserDTO.t;
  session_user : loc;
  isUpdating : bool;
  photoIsLoading : bool;
  formErrors : list yup.ValidationError;
  calls : list Event;
}.

Definition with_heap (h : gmap loc UserDTO.t) (st : State) : State :=
  {| heap := h; session_user := session_user st; isUpdating := isUpdating st;
     photoIsLoading := photoIsLoading st; formErrors := formErrors st;
     calls := calls st |}.

Definition with_session_user (l : loc) (st : State) : State :=
  {| heap := heap st; session_user := l; isUpdating := isUpdating st;
     photoIsLoading := photoIsLoading st; formErrors := formErrors st;
     calls := calls st |}.

Definition with_isUpdating (b : bool) (st : State) : State :=
  {| heap := heap st; session_user := session_user st; isUpdating := b;
     photoIsLoading := photoIsLoading st; formErrors := formErrors st;
     calls := calls st |}.

Definition with_photoIsLoading (b : bool) (st : State) : State :=
  {| heap := heap st; session_user := session_user st;
     isUpdating := isUpdating st; photoIsLoading := b;
     formErrors := formErrors st; calls := calls st |}.

Definition with_formErrors (errs : list yup.ValidationError) (st : State)
  : State :=
  {| heap := heap st; session_user := session_user st;
     isUpdating := isUpdating st; photoIsLoading := photoIsLoading st;
     formErrors := errs; calls := calls st |}.

Definition log (e : Event) (st : State) : State :=
  {| heap := heap st; session_user := session_user st;
     isUpdating := isUpdating st; photoIsLoading := photoIsLoading st;
     formErrors := formErrors st; calls := calls st ++ [e] |}.

(** ** Statements with completions *)

(** How a block of statements completes: normally, by a [return], or by a
    [throw]. *)
Inductive Completion (A : Type) :=
| Normal (a : A)
| Return_
| Throw (e : Error).
Arguments Normal {A} a.
Arguments Return_ {A}.
Arguments Throw {A} e.

Definition M (A : Type) : Type := State -> Completion A * State.

#[global] Instance M_ret : MRet M := fun A a st => (Normal a, st).

#[global] Instance M_bind : MBind M := fun A B f m st =>
  match m st with
  | (Normal a, st') => f a st'
  | (Return_, st') => (Return_, st')
  | (Throw e, st') => (Throw e, st')
  end.

Definition return_ {A} : M A := fun st => (Return_, st).
Definition throw {A} (e : Error) : M A := fun st => (Throw e, st).
Definition modify (f : State -> State) : M unit := fun st => (Normal tt, f st).

(** [try { body } catch (error) { handler } finally { finalizer }] *)
Definition try_catch_finally (body : M unit) (handler : Error -> M unit)
    (finalizer : M unit) : M unit :=
  fun st =>
    let '(c, st1) := body st in
    let '(c', st2) :=
      match c with
      | Throw e => handler e st1
      | _ => (c, st1)
      end in
    let '(f, st3) := finalizer st2 in
    match f with
    | Normal _ => (c', st3)
    | _ => (f, st3)
    end.

(** [await call]: the call is issued, and the block goes on with the value
    or throws the rejection. *)
Definition await {A} (e : Event) (o : Outcome A) : M A :=
  fun st =>
    (match o with
     | Resolve a => Normal a
     | Reject err => Throw err
     end, log e st).

(** Reading through a reference. A reference that the session handed out
    always has its object; the other case is the [TypeError] of a property
    access on [undefined]. *)
Definition load (l : loc) : M UserDTO.t :=
  fun st =>
    match heap st !! l with
    | Some u => (Normal u, st)
    | None => (Throw (OtherError "TypeError"), st)
    end.

(** [ref.name = v], [ref.avatar = v]: writes into the object itself. *)
Definition assign (f : UserDTO.t -> UserDTO.t) (l : loc) : M unit :=
  u ← load l; modify (fun st => with_heap (<[l := f u]> (heap st)) st).

Definition setIsUpdating (b : bool) : M unit := modify (with_isUpdating b).
Definition setPhotoIsLoading (b : bool) : M unit :=
  modify (with_photoIsLoading b).

(** [toast.show(...)] *)
Definition toast_show (t : Toast) : M unit := modify (log (ToastShow t)).

(** [console.log(label, ref)] *)
Definition console_log (label : jsstring) (l : loc) : M unit :=
  u ← load l; modify (log (ConsoleLog label u)).

(** Modelled from the spec: [updateUserProfile] of the session collaborator
    ([hooks/useAuth] is not among the sources). It is the specification's
    [setCurrentUser]: the session takes the object it is handed as the current
    user. Whether the promise it returns resolves is the environment's. *)
Definition updateUserProfile (env : Env) (userUpdated : loc) : M unit :=
  u ← load userUpdated;
  modify (with_session_user userUpdated);;
  await (UpdateUserProfile userUpdated u) (updateUserProfile_settles env u).

(** ** The photo workflow *)

(** [s.split(sep)] for a separator of one code unit *)
Fixpoint split (sep : N) (s : jsstring) : list jsstring :=
  match s with
  | [] => [[]]
  | c :: s' =>
      if c =? sep then [] :: split sep s'
      else
        match split sep s' with
        | seg :: segs => (c :: seg) :: segs
        | [] => [[c]]
        end
  end.

(** [array.pop()] as an expression: the last element, or [undefined] *)
Definition pop (l : list jsstring) : val :=
  match last l with
  | Some s => Str s
  | None => Undefined
  end.

(** [a > b] on numbers that are ratios of integers *)
Definition Qgtb (a b : Q) : bool := negb (Qle_bool a b).

(** [photoInfo.size && photoInfo.size / 1024 / 1024 > 5]. The size is an
    integer and the divisions are by powers of two, so the quotient is exact
    and is taken in the rationals. *)
Definition size_exceeds (photoInfo : FileInfo) : bool :=
  match size photoInfo with
  | None => false
  | Some n => negb (n =? 0)%Z && Qgtb (inject_Z n / 1024 / 1024)%Q 5%Q
  end.

Definition picker_options : ImagePickerOptions :=
  {| mediaTypes := "Images"; quality := 1; aspect := (4, 4);
     allowsEditing := true |}.

Definition size_limit_toast : Toast :=
  {| title := lit "Essa Imagem é muito grande. Escolha uma de até 5MB";
     placement := lit "top"; bgColor := lit "red.500" |}.

Definition photo_updated_toast : Toast :=
  {| title := lit "Foto atualizada!";
     placement := lit "top"; bgColor := lit "green.500" |}.

(** The toast of a [catch] block: the message of an [AppError], the given
    fallback for anything else. *)
Definition error_toast (fallback : jsstring) (error : Error) : Toast :=
  let title :=
    match error with
    | AppError message => message
    | OtherError _ => fallback
    end in
  {| title := title; placement := lit "top"; bgColor := lit "red.500" |}.

Definition photo_fallback : jsstring :=
  lit "Não foi possível atualizar a foto. Tente novamente mais tarde.".

Definition multipart_config : RequestConfig :=
  {| headers := [(lit "Content-Type", lit "multipart/form-data")] |}.

(** The multipart form of the upload, from the user's name and the asset. *)
Definition upload_form (env : Env) (u : UserDTO.t) (asset : ImagePickerAsset)
  : FormData :=
  let fileExtension := pop (split 46 (asset_uri asset)) in
  let photoFile :=
    {| file_name :=
         toLowerCase env
           (ToString (UserDTO.name u) ++ lit "." ++ ToString fileExtension);
       file_uri := asset_uri asset;
       file_type :=
         ToString (asset_type asset) ++ lit "/" ++ ToString fileExtension |} in
  [(lit "avatar", photoFile)].

(** [handleUserPhotoSelect], with [user] the reference the screen got from
    the session. *)
Definition handleUserPhotoSelect (env : Env) (user : loc) : M unit :=
  setPhotoIsLoading true;;
  try_catch_finally
    (photoSelected ←
       await (LaunchImageLibrary picker_options)
         (launchImageLibraryAsync env picker_options);
     if canceled photoSelected then return_
     else
       asset ← match assets photoSelected with
               | a :: _ => mret a
               | [] => throw (OtherError "TypeError")
               end;
       if truthy (Str (asset_uri asset)) then
         photoInfo ←
           await (GetInfo (asset_uri asset)) (getInfoAsync env (asset_uri asset));
         if size_exceeds photoInfo then
           toast_show size_limit_toast;; return_
         else
           u ← load user;
           avatarUpdatedResponse ←
             await
               (ApiPatch (lit "/users/avatar") (upload_form env u asset)
                  multipart_config)
               (api_patch env (lit "/users/avatar") (upload_form env u asset)
                  multipart_config);
           let userUpdated := user in
           assign
             (UserDTO.set_avatar (data_avatar (data avatarUpdatedResponse)))
             userUpdated;;
           updateUserProfile env userUpdated;;
           console_log (lit "Profile userUpdated =>") userUpdated;;
           toast_show photo_updated_toast
       else mret tt)
    (fun error => toast_show (error_toast photo_fallback error))
    (setPhotoIsLoading false).

(** ** The profile workflow *)

Definition profile_updated_toast : Toast :=
  {| title := lit "Perfil atualizado com sucesso!";
     placement := lit "top"; bgColor := lit "green.500" |}.

Definition profile_fallback : jsstring :=
  lit "Não foi possível atualizar os dados. Tente novamente mais tarde.".

(** [handleProfileUpdate]: [userUpdated] is the reference [user] itself, so
    the assignment of the name writes into the object the session holds, and
    it comes before the request. *)
Definition handleProfileUpdate (env : Env) (user : loc)
    (data : FormDataProps.t) : M unit :=
  try_catch_finally
    (setIsUpdating true;;
     let userUpdated := user in
     assign (UserDTO.set_name (FormDataProps.name data)) userUpdated;;
     await (ApiPut (lit "/users") data) (api_put env (lit "/users") data);;
     updateUserProfile env userUpdated;;
     toast_show profile_updated_toast)
    (fun error => toast_show (error_toast profile_fallback error))
    (setIsUpdating false).

(** [handleSubmit(handleProfileUpdate)]: the resolver validates the values of
    the form; the handler runs on the validated (cast) values when there is no
    error, and is not called otherwise. *)
Definition handleSubmit (onValid : FormDataProps.t -> M unit)
    (values : FormDataProps.t) : M unit :=
  let '(data, errs) := yup.validate profileSchema values in
  modify (with_formErrors errs);;
  match errs with
  | [] => onValid data
  | _ => mret tt
  end.

(** The two gestures of the screen: the handlers close over the [user] that
    the session holds when the screen is rendered. *)
Definition press_change_photo (env : Env) : M unit :=
  fun st => handleUserPhotoSelect env (session_user st) st.

Definition press_update (env : Env) (values : FormDataProps.t) : M unit :=
  fun st => handleSubmit (handleProfileUpdate env (session_user st)) values st.

(** The snapshot of the user that the session holds. *)
Definition current_user (st : State) : option UserDTO.t :=
  heap st !! session_user st.

(** ** A session and scripted environments *)

(** [toLowerCase] on the letters A to Z, enough for the runs below. *)
Definition ascii_lower (s : jsstring) : jsstring :=
  map (fun c => if (65 <=? c) && (c <=? 90) then c + 32 else c) s.

(** An environment that answers each awaited call with a fixed outcome. *)
Definition scripted (picker : Outcome ImagePickerResult)
    (info : Outcome FileInfo) (patch : Outcome AxiosResponse)
    (put : Outcome unit) : Env :=
  {| launchImageLibraryAsync := fun _ => picker;
     getInfoAsync := fun _ => info;
     api_patch := fun _ _ _ => patch;
     api_put := fun _ _ => put;
     updateUserProfile_settles := fun _ => Resolve tt;
     toLowerCase := ascii_lower |}.

Definition ana : UserDTO.t :=
  UserDTO.mk (Str (lit "1")) (Str (lit "Ana")) (Str (lit "ana@gym.io"))
    Undefined.

(** Ana is signed in: the session holds the reference [0] to her object. *)
Definition signed_in : State :=
  {| heap := {[ 0%nat := ana ]}; session_user := 0%nat; isUpdating := false;
     photoIsLoading := false; formErrors := []; calls := [] |}.

Definition photo : ImagePickerAsset :=
  {| asset_uri := lit "file:///cache/ImagePicker/photo.JPG";
     asset_type := Str (lit "image") |}.

Definition picked : ImagePickerResult :=
  {| canceled := false; assets := [photo] |}.

Definition dismissed : ImagePickerResult :=
  {| canceled := true; assets := [] |}.

Definition file_of_size (n : option Z) : FileInfo :=
  {| exists_ := true; size := n |}.

Definition avatar_response : AxiosResponse :=
  {| data := {| data_avatar := Str (lit "u123.png") |} |}.

Definition network_error : Error := OtherError "Network Error".

(** The form as Ana submits it after typing a new name: the e-mail is the
    default value of the form, the password fields are untouched. *)
Definition rename_to_bia : FormDataProps.t :=
  FormDataProps.mk (Str (lit "Bia")) (Str (lit "ana@gym.io")) Undefined
    Undefined Undefined.

Definition with_passwords (password confirm_password : val)
  : FormDataProps.t :=
  FormDataProps.mk (Str (lit "Ana")) (Str (lit "ana@gym.io")) Undefined
    password confirm_password.

(** The picker is dismissed. *)
Definition dismissing_env : Env :=
  scripted (Resolve dismissed) (Resolve (file_of_size None))
    (Resolve avatar_response) (Resolve tt).

(** A photo of the given size is picked and the server accepts uploads. *)
Definition picking_env (n : option Z) : Env :=
  scripted (Resolve picked) (Resolve (file_of_size n))
    (Resolve avatar_response) (Resolve tt).

(** The request of the profile update fails. *)
Definition offline_env : Env :=
  scripted (Resolve picked) (Resolve (file_of_size None))
    (Resolve avatar_response) (Reject network_error).

(** ** What the screen renders from the state *)

(** [useForm({ defaultValues: { name: user.name, email: user.email } })]: the
    values of a form that has not been touched. *)
Definition defaultValues (user : UserDTO.t) : FormDataProps.t :=
  FormDataProps.mk (UserDTO.name user) (UserDTO.email user) Undefined
    Undefined Undefined.

Inductive ImageSource :=
| RemoteImage (uri : jsstring)
| defaultUserPhotoImg.

Inductive PhotoArea :=
| Skeleton
| UserPhoto (source : ImageSource).

(** The photo at the top of the screen: the skeleton while a photo is
    loading, else the user's avatar under [api.defaults.baseURL], or the
    default image when the user has none. *)
Definition photo_area (baseURL : val) (st : State) (user : UserDTO.t)
  : PhotoArea :=
  if photoIsLoading st then Skeleton
  else
    UserPhoto
      (if truthy (UserDTO.avatar user)
       then RemoteImage (ToString baseURL ++ lit "/avatar/"
                         ++ ToString (UserDTO.avatar user))
       else defaultUserPhotoImg).

(** The validated value of a field that the schema normalises: the empty
    string becomes [null], an absent value stays absent. *)
Definition normalised (v : val) : val :=
  match v with
  | Undefined => Undefined
  | _ => empty_to_null v
  end.

(** ** More scripted runs *)

(** An error the API raises with a message of its own. *)
Definition server_error : Error := AppError (lit "Formato de imagem inválido.").

Definition picked_without_uri : ImagePickerResult :=
  {| canceled := false;
     assets := [ {| asset_uri := []; asset_type := Str (lit "image") |} ] |}.

Definition picked_nothing : ImagePickerResult :=
  {| canceled := false; assets := [] |}.

(** The upload of a picked photo of 1 MB is refused by the server. *)
Definition refusing_env : Env :=
  scripted (Resolve picked) (Resolve (file_of_size (Some 1048576%Z)))
    (Reject server_error) (Resolve tt).

(** The picker fails. *)
Definition broken_picker_env : Env :=
  scripted (Reject network_error) (Resolve (file_of_size None))
    (Resolve avatar_response) (Resolve tt).

(** The size lookup fails. *)
Definition missing_file_env : Env :=
  scripted (Resolve picked) (Reject (OtherError "NotFound"))
    (Resolve avatar_response) (Resolve tt).

(** A payload with a new name and a new password, confirmed. *)
Definition new_password_form : FormDataProps.t :=
  FormDataProps.mk (Str (lit "Bia")) (Str (lit "ana@gym.io"))
    (Str (lit "old-secret")) (Str (lit "secret1")) (Str (lit "secret1")).

(** The form after the password fields were typed in and cleared again. *)
Definition cleared_passwords_form : FormDataProps.t :=
  FormDataProps.mk (Str (lit "Bia")) (Str (lit "ana@gym.io")) (Str [])
    (Str []) (Str []).

(** * Properties *)

(** ** Tools for running the handlers *)

Lemma Qgtb_megabytes (n : Z) :
  Qgtb (inject_Z n / 1024 / 1024)%Q 5%Q = true <-> (5 * 1024 * 1024 < n)%Z.
Proof.
  unfold Qgtb. rewrite negb_true_iff, <- not_true_iff_false, Qle_bool_iff.
  unfold Qle, Qdiv, Qmult, Qinv, inject_Z. simpl. lia.
Qed.

Lemma size_exceeds_over (info : FileInfo) (n : Z) :
  size info = Some n -> (5 * 1024 * 1024 < n)%Z -> size_exceeds info = true.
Proof.
  intros Hs Hn. unfold size_exceeds. rewrite Hs. apply andb_true_iff. split.
  - apply negb_true_iff, Z.eqb_neq. lia.
  - apply Qgtb_megabytes. exact Hn.
Qed.

Lemma size_exceeds_within (info : FileInfo) :
  (forall n, size info = Some n -> (n <= 5 * 1024 * 1024)%Z) ->
  size_exceeds info = false.
Proof.
  intros H. unfold size_exceeds. destruct (size info) as [n|]; [|reflexivity].
  apply andb_false_iff. right. apply not_true_iff_false.
  rewrite Qgtb_megabytes. specialize (H n eq_refl). lia.
Qed.

Lemma truthy_nonempty (s : jsstring) : s <> [] -> truthy (Str s) = true.
Proof. destruct s; [congruence | reflexivity]. Qed.

Ltac unfold_M :=
  unfold try_catch_finally, updateUserProfile, console_log, assign,
    toast_show, setPhotoIsLoading, setIsUpdating, await, load, modify,
    return_, throw, mbind, M_bind, mret, M_ret.

Ltac run := cbn -[lookup insert lit truthy size_exceeds upload_form].

Ltac trace_eq := rewrite <- ?app_assoc; reflexivity.

(** The [finally] blocks: whatever the body and the handler do, the flag is
    cleared when the block is left. *)
Lemma finally_clears_photoIsLoading (body : M unit) (handler : Error -> M unit)
    (st : State) :
  photoIsLoading
    (snd (try_catch_finally body handler (setPhotoIsLoading false) st)) = false.
Proof.
  unfold try_catch_finally. destruct (body st) as [c st1].
  destruct (match c with Throw e => handler e st1 | _ => (c, st1) end)
    as [c' st2].
  reflexivity.
Qed.

Lemma finally_clears_isUpdating (body : M unit) (handler : Error -> M unit)
    (st : State) :
  isUpdating
    (snd (try_catch_finally body handler (setIsUpdating false) st)) = false.
Proof.
  unfold try_catch_finally. destruct (body st) as [c st1].
  destruct (match c with Throw e => handler e st1 | _ => (c, st1) end)
    as [c' st2].
  reflexivity.
Qed.

(** ** The photo workflow *)

(** C7: when the picker reports cancellation, the photo workflow completes
    without a throw, issues no call other than the picker's (no toast, no
    request, nothing pushed to the session), and leaves the store and the
    session's reference as they were. *)
Theorem cancelled_picker_changes_nothing (env : Env) (user : loc) (st : State)
    (photoSelected : ImagePickerResult) :
  launchImageLibraryAsync env picker_options = Resolve photoSelected ->
  canceled photoSelected = true ->
  fst (handleUserPhotoSelect env user st) = Return_ /\
  calls (snd (handleUserPhotoSelect env user st))
  = calls st ++ [LaunchImageLibrary picker_options] /\
  heap (snd (handleUserPhotoSelect env user st)) = heap st /\
  session_user (snd (handleUserPhotoSelect env user st)) = session_user st.
Proof.
  intros Hl Hc. unfold handleUserPhotoSelect. unfold_M. run.
  rewrite Hl. run. rewrite Hc. run. repeat split.
Qed.

(** C4: an image whose reported size exceeds 5*1024*1024 bytes stops the
    photo workflow before any request: the calls are the picker's, the size
    lookup and the size-limit toast, none of them to the remote API, and the
    store and the session's reference are unchanged. *)
Theorem oversized_photo_is_not_uploaded (env : Env) (user : loc) (st : State)
    (photoSelected : ImagePickerResult) (asset : ImagePickerAsset)
    (others : list ImagePickerAsset) (photoInfo : FileInfo) (n : Z) :
  launchImageLibraryAsync env picker_options = Resolve photoSelected ->
  canceled photoSelected = false ->
  assets photoSelected = asset :: others ->
  asset_uri asset <> [] ->
  getInfoAsync env (asset_uri asset) = Resolve photoInfo ->
  size photoInfo = Some n ->
  (5 * 1024 * 1024 < n)%Z ->
  calls (snd (handleUserPhotoSelect env user st))
  = calls st ++ [LaunchImageLibrary picker_options; GetInfo (asset_uri asset);
                 ToastShow size_limit_toast] /\
  filter (fun e => is_remote_call e = true)
    (calls (snd (handleUserPhotoSelect env user st)))
  = filter (fun e => is_remote_call e = true) (calls st) /\
  heap (snd (handleUserPhotoSelect env user st)) = heap st /\
  session_user (snd (handleUserPhotoSelect env user st)) = session_user st.
Proof.
  intros Hl Hc Ha Hu Hg Hs Hn.
  pose proof (size_exceeds_over _ _ Hs Hn) as Hex.
  pose proof (truthy_nonempty _ Hu) as Ht.
  assert (Hcalls : calls (snd (handleUserPhotoSelect env user st))
    = calls st ++ [LaunchImageLibrary picker_options; GetInfo (asset_uri asset);
                   ToastShow size_limit_toast]).
  { unfold handleUserPhotoSelect. unfold_M. run.
    rewrite Hl. run. rewrite Hc, Ha. run. rewrite Ht, Hg. run.
    rewrite Hex. run. trace_eq. }
  split; [exact Hcalls|]. split.
  { rewrite Hcalls, filter_app. simpl. apply app_nil_r. }
  unfold handleUserPhotoSelect. unfold_M. run.
  rewrite Hl. run. rewrite Hc, Ha. run. rewrite Ht, Hg. run.
  rewrite Hex. run. split; reflexivity.
Qed.

(** The run of the photo workflow from the upload request on, for an image
    that passed the size check. *)
Lemma upload_run (env : Env) (user : loc) (st : State)
    (photoSelected : ImagePickerResult) (asset : ImagePickerAsset)
    (others : list ImagePickerAsset) (photoInfo : FileInfo) (u : UserDTO.t) :
  launchImageLibraryAsync env picker_options = Resolve photoSelected ->
  canceled photoSelected = false ->
  assets photoSelected = asset :: others ->
  asset_uri asset <> [] ->
  getInfoAsync env (asset_uri asset) = Resolve photoInfo ->
  size_exceeds photoInfo = false ->
  heap st !! user = Some u ->
  let request :=
    ApiPatch (lit "/users/avatar") (upload_form env u asset) multipart_config in
  let st' := snd (handleUserPhotoSelect env user st) in
  match api_patch env (lit "/users/avatar") (upload_form env u asset)
          multipart_config with
  | Reject e =>
      calls st' = calls st ++ [LaunchImageLibrary picker_options;
                               GetInfo (asset_uri asset); request;
                               ToastShow (error_toast photo_fallback e)] /\
      heap st' = heap st /\ session_user st' = session_user st
  | Resolve response =>
      let u' := UserDTO.set_avatar (data_avatar (data response)) u in
      heap st' = <[user := u']> (heap st) /\ session_user st' = user /\
      match updateUserProfile_settles env u' with
      | Resolve _ =>
          calls st' = calls st ++ [LaunchImageLibrary picker_options;
                                   GetInfo (asset_uri asset); request;
                                   UpdateUserProfile user u';
                                   ConsoleLog (lit "Profile userUpdated =>") u';
                                   ToastShow photo_updated_toast]
      | Reject e =>
          calls st' = calls st ++ [LaunchImageLibrary picker_options;
                                   GetInfo (asset_uri asset); request;
                                   UpdateUserProfile user u';
                                   ToastShow (error_toast photo_fallback e)]
      end
  end.
Proof.
  intros Hl Hc Ha Hu Hg Hex Hh request st'. subst request st'.
  pose proof (truthy_nonempty _ Hu) as Ht.
  unfold handleUserPhotoSelect. unfold_M. run.
  rewrite Hl. run. rewrite Hc, Ha. run. rewrite Ht, Hg. run.
  rewrite Hex. run. rewrite Hh. run.
  destruct (api_patch env (lit "/users/avatar") (upload_form env u asset)
              multipart_config) as [response|e]; run.
  - rewrite Hh. run. rewrite lookup_insert_eq. run.
    destruct (updateUserProfile_settles env
                (UserDTO.set_avatar (data_avatar (data response)) u))
      as [[]|e]; run.
    + rewrite lookup_insert_eq. run. repeat split. trace_eq.
    + repeat split. trace_eq.
  - repeat split. trace_eq.
Qed.

(** C10: when the size lookup reports no size, or a size of zero, the size
    check is skipped: the call that follows the lookup is the upload request,
    with no toast before it. What follows the request is decided by the
    answers alone: the catch toast of the request's own rejection; or the
    snapshot handed to the session, then the log and the success toast, or the
    catch toast of the session's own rejection. The size-limit toast of the
    size check is in none of these runs. *)
Theorem photo_without_size_is_uploaded (env : Env) (user : loc) (st : State)
    (photoSelected : ImagePickerResult) (asset : ImagePickerAsset)
    (others : list ImagePickerAsset) (photoInfo : FileInfo) (u : UserDTO.t) :
  launchImageLibraryAsync env picker_options = Resolve photoSelected ->
  canceled photoSelected = false ->
  assets photoSelected = asset :: others ->
  asset_uri asset <> [] ->
  getInfoAsync env (asset_uri asset) = Resolve photoInfo ->
  size photoInfo = None \/ size photoInfo = Some 0%Z ->
  heap st !! user = Some u ->
  size_exceeds photoInfo = false /\
  match api_patch env (lit "/users/avatar") (upload_form env u asset)
          multipart_config with
  | Reject e =>
      calls (snd (handleUserPhotoSelect env user st))
      = calls st ++ [LaunchImageLibrary picker_options;
                     GetInfo (asset_uri asset);
                     ApiPatch (lit "/users/avatar") (upload_form env u asset)
                       multipart_config;
                     ToastShow (error_toast photo_fallback e)]
  | Resolve response =>
      match updateUserProfile_settles env
              (UserDTO.set_avatar (data_avatar (data response)) u) with
      | Resolve _ =>
          calls (snd (handleUserPhotoSelect env user st))
          = calls st ++ [LaunchImageLibrary picker_options;
                         GetInfo (asset_uri asset);
                         ApiPatch (lit "/users/avatar")
                           (upload_form env u asset) multipart_config;
                         UpdateUserProfile user
                           (UserDTO.set_avatar
                              (data_avatar (data response)) u);
                         ConsoleLog (lit "Profile userUpdated =>")
                           (UserDTO.set_avatar
                              (data_avatar (data response)) u);
                         ToastShow photo_updated_toast]
      | Reject e =>
          calls (snd (handleUserPhotoSelect env user st))
          = calls st ++ [LaunchImageLibrary picker_options;
                         GetInfo (asset_uri asset);
                         ApiPatch (lit "/users/avatar")
                           (upload_form env u asset) multipart_config;
                         UpdateUserProfile user
                           (UserDTO.set_avatar
                              (data_avatar (data response)) u);
                         ToastShow (error_toast photo_fallback e)]
      end
  end.
Proof.
  intros Hl Hc Ha Hu Hg Hs Hh.
  assert (Hex : size_exceeds photoInfo = false).
  { unfold size_exceeds. destruct Hs as [-> | ->]; reflexivity. }
  split; [exact Hex|].
  pose proof (upload_run env user st _ _ _ _ _ Hl Hc Ha Hu Hg Hex Hh) as Hrun.
  cbv zeta in Hrun.
  destruct (api_patch env (lit "/users/avatar") (upload_form env u asset)
              multipart_config) as [response|e].
  - destruct Hrun as (_ & _ & Hrun).
    destruct (updateUserProfile_settles env _) as [[]|e]; exact Hrun.
  - destruct Hrun as (Hrun & _). exact Hrun.
Qed.

(** C5: when the upload request resolves with a response whose avatar is a
    string, the snapshot handed to the session has exactly that string as its
    avatar, it is the only snapshot handed over, and it is what the user
    object in the store then holds. *)
Theorem uploaded_avatar_reaches_session (env : Env) (user : loc) (st : State)
    (photoSelected : ImagePickerResult) (asset : ImagePickerAsset)
    (others : list ImagePickerAsset) (photoInfo : FileInfo) (u : UserDTO.t)
    (response : AxiosResponse) (a : jsstring) :
  launchImageLibraryAsync env picker_options = Resolve photoSelected ->
  canceled photoSelected = false ->
  assets photoSelected = asset :: others ->
  asset_uri asset <> [] ->
  getInfoAsync env (asset_uri asset) = Resolve photoInfo ->
  (forall n, size photoInfo = Some n -> (n <= 5 * 1024 * 1024)%Z) ->
  heap st !! user = Some u ->
  api_patch env (lit "/users/avatar") (upload_form env u asset)
    multipart_config = Resolve response ->
  data_avatar (data response) = Str a ->
  exists before snapshot after,
    calls (snd (handleUserPhotoSelect env user st))
    = calls st ++ before ++ [UpdateUserProfile user snapshot] ++ after /\
    UserDTO.avatar snapshot = Str a /\
    (forall l s, UpdateUserProfile l s ∉ before ++ after) /\
    heap (snd (handleUserPhotoSelect env user st)) !! user = Some snapshot.
Proof.
  intros Hl Hc Ha Hu Hg Hs Hh Hp Hav.
  pose proof (size_exceeds_within _ Hs) as Hex.
  pose proof (upload_run env user st _ _ _ _ _ Hl Hc Ha Hu Hg Hex Hh) as Hrun.
  cbv zeta in Hrun. rewrite Hp, Hav in Hrun.
  destruct Hrun as (Hheap & Hsess & Hrun).
  exists [LaunchImageLibrary picker_options; GetInfo (asset_uri asset);
          ApiPatch (lit "/users/avatar") (upload_form env u asset)
            multipart_config],
    (UserDTO.set_avatar (Str a) u).
  rewrite Hheap, lookup_insert_eq.
  destruct (updateUserProfile_settles env _) as [[]|e];
    eexists; (split; [rewrite Hrun; reflexivity|]);
    (split; [reflexivity|]); (split; [|reflexivity]);
    intros l s Hin;
    repeat (apply elem_of_cons in Hin as [Hin | Hin]; [discriminate Hin|]);
    apply elem_of_nil in Hin; contradiction.
Qed.

(** C6: the busy flags are cleared when a workflow is left, whatever the
    environment answers (a failing request included) and whatever the state
    and the payload: [photoIsLoading] after the photo workflow, [isUpdating]
    after the profile workflow. *)
Theorem busy_flags_are_cleared (env : Env) (user : loc) (st : State)
    (data : FormDataProps.t) :
  photoIsLoading (snd (handleUserPhotoSelect env user st)) = false /\
  isUpdating (snd (handleProfileUpdate env user data st)) = false.
Proof.
  split.
  - unfold handleUserPhotoSelect.
    unfold mbind at 1. unfold M_bind at 1. unfold setPhotoIsLoading at 1.
    unfold modify at 1.
    apply finally_clears_photoIsLoading.
  - unfold handleProfileUpdate. apply finally_clears_isUpdating.
Qed.

(** ** Validation *)

Lemma includes_singleton (w v : val) :
  yup.includes [w] v = bool_decide (v = w).
Proof.
  unfold yup.includes. apply bool_decide_ext. rewrite list_elem_of_singleton.
  reflexivity.
Qed.

Ltac eval_schema := cbv -[yup.includes Nat.leb length lit].

(** A submit whose validation reports an error does not run the handler. *)
Lemma handleSubmit_rejects (onValid : FormDataProps.t -> M unit)
    (values : FormDataProps.t) (st : State) :
  snd (yup.validate profileSchema values) <> [] ->
  handleSubmit onValid values st
  = (Normal tt, with_formErrors (snd (yup.validate profileSchema values)) st).
Proof.
  intros Hne. unfold handleSubmit.
  destruct (yup.validate profileSchema values) as [data errs]. simpl in *.
  destruct errs; [congruence | reflexivity].
Qed.

Lemma field_error_rejects (d : FormDataProps.t) (k : Key)
    (e : yup.ValidationError) :
  field_error d k = Some e -> snd (yup.validate profileSchema d) <> [].
Proof.
  unfold field_error, errors_of. intros H Hnil. rewrite Hnil in H.
  discriminate H.
Qed.

(** C8: a payload whose password has between 1 and 5 code units is rejected,
    with the too-short error attached to the password field, and the submit
    handler is not run. *)
Theorem short_password_is_rejected (d : FormDataProps.t) (s : jsstring) :
  FormDataProps.password d = Str s ->
  (1 <= length s <= 5)%nat ->
  field_error d Password = Some too_short_error /\
  forall onValid st,
    handleSubmit onValid d st
    = (Normal tt, with_formErrors (snd (yup.validate profileSchema d)) st).
Proof.
  intros Hp Hlen.
  assert (H : field_error d Password = Some too_short_error).
  { destruct d as [n e o p c]. simpl in Hp. subst p.
    destruct s as [|c1 [|c2 [|c3 [|c4 [|c5 [|c6 s]]]]]]; simpl in Hlen;
      try lia; reflexivity. }
  split; [exact H|].
  intros onValid st. apply handleSubmit_rejects.
  exact (field_error_rejects _ _ _ H).
Qed.

(** C2 as stated does not hold: with an empty password, a confirmation that
    holds a stray value is reported as a mismatch. *)
Lemma stray_confirmation_is_rejected :
  ~ (forall d : FormDataProps.t,
       truthy (FormDataProps.password d) = false ->
       field_error d Confirm_password = None).
Proof.
  intros H.
  specialize (H (with_passwords (Str []) (Str (lit "abc123"))) eq_refl).
  vm_compute in H. discriminate H.
Qed.

(** C2, amended: when the password is empty or absent, the confirmation
    passes exactly when it is empty or absent too; a non-empty confirmation
    is rejected with the mismatch error. *)
Theorem confirmation_without_password (d : FormDataProps.t) :
  truthy (FormDataProps.password d) = false ->
  field_error d Confirm_password
  = if truthy (FormDataProps.confirm_password d) then Some mismatch_error
    else None.
Proof.
  intros Hp. destruct d as [n e o p c]. simpl in Hp.
  destruct p as [| |[|p1 ps]]; try discriminate Hp;
    destruct c as [| |[|c1 cs]];
    destruct n as [| |[|n1 ns]];
    eval_schema; rewrite ?includes_singleton; reflexivity.
Qed.

(** C9 as stated does not hold: with a password and an empty confirmation,
    the error attached to the confirmation is the required one; no mismatch
    error is reported for the payload. *)
Lemma empty_confirmation_is_not_a_mismatch :
  ~ (forall d : FormDataProps.t,
       truthy (FormDataProps.password d) = true ->
       FormDataProps.confirm_password d <> FormDataProps.password d ->
       mismatch_error ∈ snd (yup.validate profileSchema d)).
Proof.
  intros H.
  specialize (H (with_passwords (Str (lit "secret1")) (Str []))).
  assert (Hne : Str [] <> Str (lit "secret1")) by (vm_compute; discriminate).
  specialize (H eq_refl Hne).
  vm_compute in H. apply list_elem_of_singleton in H. discriminate H.
Qed.

(** C9, amended: when the password is non-empty and the confirmation differs
    from it, the payload is rejected with an error attached to the
    confirmation: the mismatch error when the confirmation is non-empty, the
    required message when the confirmation is empty or absent. *)
Theorem differing_confirmation_is_rejected (d : FormDataProps.t) :
  truthy (FormDataProps.password d) = true ->
  FormDataProps.confirm_password d <> FormDataProps.password d ->
  exists e,
    field_error d Confirm_password = Some e /\
    yup.path e = Confirm_password /\
    (if truthy (FormDataProps.confirm_password d)
     then e = mismatch_error
     else yup.message e = confirmation_required_message).
Proof.
  intros Hp Hne. destruct d as [n e o p c]. simpl in Hp, Hne.
  destruct p as [| |[|p1 ps]]; try discriminate Hp.
  assert (Hinc : forall cs, Str cs <> Str (p1 :: ps) ->
                   yup.includes [Str (p1 :: ps)] (Str cs) = false).
  { intros cs H. rewrite includes_singleton. apply bool_decide_eq_false_2, H. }
  destruct c as [| |[|c1 cs]];
    destruct n as [| |[|n1 ns]];
    eval_schema;
    destruct (Nat.leb 6 (length (p1 :: ps)));
    try rewrite (Hinc _ Hne);
    eexists; (split; [reflexivity|]); split; reflexivity.
Qed.

(** ** The profile workflow *)

(** The run of the profile workflow on a user object that is in the store:
    the name is written first, then the request is issued. *)
Lemma profile_run (env : Env) (user : loc) (data : FormDataProps.t)
    (st : State) (u : UserDTO.t) :
  heap st !! user = Some u ->
  let u' := UserDTO.set_name (FormDataProps.name data) u in
  let st' := snd (handleProfileUpdate env user data st) in
  heap st' = <[user := u']> (heap st) /\
  match api_put env (lit "/users") data with
  | Reject e =>
      calls st' = calls st ++ [ApiPut (lit "/users") data;
                               ToastShow (error_toast profile_fallback e)] /\
      session_user st' = session_user st
  | Resolve _ =>
      session_user st' = user /\
      match updateUserProfile_settles env u' with
      | Resolve _ =>
          calls st' = calls st ++ [ApiPut (lit "/users") data;
                                   UpdateUserProfile user u';
                                   ToastShow profile_updated_toast]
      | Reject e =>
          calls st' = calls st ++ [ApiPut (lit "/users") data;
                                   UpdateUserProfile user u';
                                   ToastShow (error_toast profile_fallback e)]
      end
  end.
Proof.
  intros Hh u' st'. subst u' st'.
  unfold handleProfileUpdate. unfold_M. run. rewrite Hh. run.
  destruct (api_put env (lit "/users") data) as [[]|e]; run.
  - rewrite lookup_insert_eq. run.
    destruct (updateUserProfile_settles env
                (UserDTO.set_name (FormDataProps.name data) u)) as [[]|e];
      run; repeat split; trace_eq.
  - repeat split. trace_eq.
Qed.

(** C1, on the code: Ana submits the name Bia and the request fails with an
    error that is not an [AppError]. The fallback message is shown and the
    busy flag is cleared, but the object the session holds already carries
    the new name. *)
Theorem failed_update_leaves_new_name :
  current_user signed_in = Some ana /\
  snd (yup.validate profileSchema rename_to_bia) = [] /\
  let st' :=
    snd (press_update offline_env rename_to_bia signed_in) in
  calls st' = [ApiPut (lit "/users") rename_to_bia;
               ToastShow (error_toast profile_fallback network_error)] /\
  isUpdating st' = false /\
  current_user st' = Some (UserDTO.set_name (Str (lit "Bia")) ana) /\
  UserDTO.name <$> current_user st' <> UserDTO.name <$> current_user signed_in.
Proof.
  vm_compute. repeat split. discriminate.
Qed.

(** C3 as stated does not hold: the e-mail of a validated payload is part of
    the body of the request. *)
Lemma email_is_submitted :
  ~ (forall (env : Env) (user : loc) (data : FormDataProps.t) (st : State),
       snd (yup.validate profileSchema data) = [] ->
       forall url body,
         ApiPut url body ∈ calls (snd (handleProfileUpdate env user data st)) ->
         FormDataProps.email body = Undefined).
Proof.
  intros H.
  specialize (H (picking_env None) 0%nat rename_to_bia signed_in eq_refl
                (lit "/users") rename_to_bia).
  assert (Hin : ApiPut (lit "/users") rename_to_bia
                ∈ calls (snd (handleProfileUpdate (picking_env None) 0%nat
                                rename_to_bia signed_in))).
  { vm_compute. apply list_elem_of_here. }
  specialize (H Hin). vm_compute in H. discriminate H.
Qed.

(** C3, amended: the profile workflow issues one request, a PUT to [/users]
    whose body is the payload as it is, with all its fields (the name, the
    e-mail and the password fields). *)
Theorem whole_payload_is_submitted (env : Env) (user : loc)
    (data : FormDataProps.t) (st : State) (u : UserDTO.t) :
  heap st !! user = Some u ->
  exists rest,
    calls (snd (handleProfileUpdate env user data st))
    = calls st ++ [ApiPut (lit "/users") data] ++ rest /\
    forall e, e ∈ rest -> is_remote_call e = false.
Proof.
  intros Hh.
  pose proof (profile_run env user data st u Hh) as Hrun. cbv zeta in Hrun.
  destruct Hrun as (_ & Hrun).
  destruct (api_put env (lit "/users") data) as [[]|e].
  - destruct Hrun as (_ & Hrun).
    destruct (updateUserProfile_settles env _) as [[]|e];
      eexists; (split; [rewrite Hrun; reflexivity|]);
      intros ev Hin;
      repeat (apply elem_of_cons in Hin as [-> | Hin]; [reflexivity|]);
      apply elem_of_nil in Hin; contradiction.
  - destruct Hrun as (Hrun & _).
    eexists. split; [rewrite Hrun; reflexivity|].
    intros ev Hin.
    repeat (apply elem_of_cons in Hin as [-> | Hin]; [reflexivity|]).
    apply elem_of_nil in Hin. contradiction.
Qed.

(** ** The theorems at concrete runs

    Each theorem above that has hypotheses is applied to one run of the
    scripted environments: the dismissed picker, a photo of 6 MB, a photo
    without a size, a photo of 2 MB answered with [u123.png], and payloads
    with the passwords of the scenarios. *)

Lemma cancelled_picker_changes_nothing_witness :
  fst (handleUserPhotoSelect dismissing_env 0%nat signed_in) = Return_ /\
  calls (snd (handleUserPhotoSelect dismissing_env 0%nat signed_in))
  = calls signed_in ++ [LaunchImageLibrary picker_options] /\
  heap (snd (handleUserPhotoSelect dismissing_env 0%nat signed_in))
  = heap signed_in /\
  session_user (snd (handleUserPhotoSelect dismissing_env 0%nat signed_in))
  = session_user signed_in.
Proof.
  apply (cancelled_picker_changes_nothing dismissing_env 0%nat signed_in
           dismissed); reflexivity.
Defined.

Lemma oversized_photo_is_not_uploaded_witness :
  calls (snd (handleUserPhotoSelect (picking_env (Some 6291456%Z)) 0%nat
                signed_in))
  = calls signed_in ++ [LaunchImageLibrary picker_options;
                        GetInfo (asset_uri photo);
                        ToastShow size_limit_toast] /\
  filter (fun e => is_remote_call e = true)
    (calls (snd (handleUserPhotoSelect (picking_env (Some 6291456%Z)) 0%nat
                   signed_in)))
  = filter (fun e => is_remote_call e = true) (calls signed_in) /\
  heap (snd (handleUserPhotoSelect (picking_env (Some 6291456%Z)) 0%nat
               signed_in))
  = heap signed_in /\
  session_user (snd (handleUserPhotoSelect (picking_env (Some 6291456%Z))
                       0%nat signed_in))
  = session_user signed_in.
Proof.
  apply (oversized_photo_is_not_uploaded (picking_env (Some 6291456%Z)) 0%nat
           signed_in picked photo [] (file_of_size (Some 6291456%Z))
           6291456%Z);
    [reflexivity | reflexivity | reflexivity | vm_compute; discriminate
    | reflexivity | reflexivity | lia].
Defined.

Lemma photo_without_size_is_uploaded_witness :
  size_exceeds (file_of_size None) = false /\
  calls (snd (handleUserPhotoSelect (picking_env None) 0%nat signed_in))
  = calls signed_in
    ++ [LaunchImageLibrary picker_options;
        GetInfo (asset_uri photo);
        ApiPatch (lit "/users/avatar")
          (upload_form (picking_env None) ana photo) multipart_config;
        UpdateUserProfile 0%nat
          (UserDTO.set_avatar (Str (lit "u123.png")) ana);
        ConsoleLog (lit "Profile userUpdated =>")
          (UserDTO.set_avatar (Str (lit "u123.png")) ana);
        ToastShow photo_updated_toast].
Proof.
  apply (photo_without_size_is_uploaded (picking_env None) 0%nat signed_in
           picked photo [] (file_of_size None) ana);
    [reflexivity | reflexivity | reflexivity | vm_compute; discriminate
    | reflexivity | left; reflexivity | reflexivity].
Defined.

Lemma uploaded_avatar_reaches_session_witness :
  exists before snapshot after,
    calls (snd (handleUserPhotoSelect (picking_env (Some 2097152%Z)) 0%nat
                  signed_in))
    = calls signed_in ++ before ++ [UpdateUserProfile 0%nat snapshot] ++ after /\
    UserDTO.avatar snapshot = Str (lit "u123.png") /\
    (forall l s, UpdateUserProfile l s ∉ before ++ after) /\
    heap (snd (handleUserPhotoSelect (picking_env (Some 2097152%Z)) 0%nat
                 signed_in)) !! 0%nat
    = Some snapshot.
Proof.
  apply (uploaded_avatar_reaches_session (picking_env (Some 2097152%Z)) 0%nat
           signed_in picked photo [] (file_of_size (Some 2097152%Z)) ana
           avatar_response (lit "u123.png"));
    [reflexivity | reflexivity | reflexivity | vm_compute; discriminate
    | reflexivity | | reflexivity | reflexivity | reflexivity].
  intros n Hn. simpl in Hn. injection Hn as <-. lia.
Defined.

Lemma short_password_is_rejected_witness :
  field_error (with_passwords (Str (lit "abc12")) (Str (lit "abc12"))) Password
  = Some too_short_error /\
  forall onValid st,
    handleSubmit onValid
      (with_passwords (Str (lit "abc12")) (Str (lit "abc12"))) st
    = (Normal tt,
       with_formErrors
         (snd (yup.validate profileSchema
                 (with_passwords (Str (lit "abc12")) (Str (lit "abc12")))))
         st).
Proof.
  apply (short_password_is_rejected
           (with_passwords (Str (lit "abc12")) (Str (lit "abc12")))
           (lit "abc12"));
    [reflexivity | vm_compute; lia].
Defined.

Lemma confirmation_without_password_witness :
  field_error (with_passwords (Str []) (Str (lit "abc123"))) Confirm_password
  = Some mismatch_error.
Proof.
  apply (confirmation_without_password
           (with_passwords (Str []) (Str (lit "abc123")))).
  reflexivity.
Defined.

Lemma differing_confirmation_is_rejected_witness :
  exists e,
    field_error (with_passwords (Str (lit "secret1")) (Str (lit "secret2")))
      Confirm_password = Some e /\
    yup.path e = Confirm_password /\
    e = mismatch_error.
Proof.
  apply (differing_confirmation_is_rejected
           (with_passwords (Str (lit "secret1")) (Str (lit "secret2"))));
    [reflexivity | vm_compute; discriminate].
Defined.

Lemma whole_payload_is_submitted_witness :
  exists rest,
    calls (snd (handleProfileUpdate offline_env 0%nat rename_to_bia signed_in))
    = calls signed_in ++ [ApiPut (lit "/users") rename_to_bia] ++ rest /\
    forall e, e ∈ rest -> is_remote_call e = false.
Proof.
  apply (whole_payload_is_submitted offline_env 0%nat rename_to_bia signed_in
           ana).
  reflexivity.
Defined.

(** * Further properties of the schema *)

Ltac split_tests :=
  repeat match goal with
         | |- context [Nat.leb ?a ?b] => destruct (Nat.leb a b) eqn:?
         | |- context [yup.includes ?l ?v] => destruct (yup.includes l v) eqn:?
         end.

(** X1: the name is the only thing the schema asks of it to be non-empty: an
    absent, null or empty name is rejected with the message of the source on
    the name field, and any non-empty name passes, blanks included (the
    schema does not trim). *)
Theorem name_is_required (d : FormDataProps.t) :
  if truthy (FormDataProps.name d)
  then field_error d Name = None
  else exists e, field_error d Name = Some e /\
                 yup.path e = Name /\
                 yup.message e = yup.Custom (lit "Informe o nome.").
Proof.
  destruct d as [n e o p c].
  destruct n as [| |[|n1 ns]];
    destruct p as [| |[|p1 ps]];
    destruct c as [| |[|c1 cs]];
    eval_schema; split_tests;
    try reflexivity; eexists; (split; [reflexivity|]); split; reflexivity.
Qed.

(** X2: the password field carries an error exactly when the password is
    non-empty and shorter than 6 code units; an absent, null or empty
    password and a password of 6 or more code units carry none. *)
Theorem password_error_iff_short (d : FormDataProps.t) :
  field_error d Password
  = match FormDataProps.password d with
    | Str (c :: s) =>
        if (6 <=? length (c :: s))%nat then None else Some too_short_error
    | _ => None
    end.
Proof.
  destruct d as [n e o p c].
  destruct n as [| |[|n1 ns]];
    destruct p as [| |[|p1 ps]];
    destruct c as [| |[|c1 cs]];
    eval_schema; split_tests; reflexivity.
Qed.

(** X3: the payloads the schema accepts. Validation reports no error exactly
    when the name is non-empty and either the password is empty or absent
    together with the confirmation, or the password has at least 6 code units
    and the confirmation is equal to it. *)
Theorem validation_passes_iff (d : FormDataProps.t) :
  snd (yup.validate profileSchema d) = [] <->
  truthy (FormDataProps.name d) = true /\
  match FormDataProps.password d with
  | Str (c :: s) =>
      (6 <= length (c :: s))%nat /\
      FormDataProps.confirm_password d = Str (c :: s)
  | _ => truthy (FormDataProps.confirm_password d) = false
  end.
Proof.
  destruct d as [n e o p c].
  destruct n as [| |[|n1 ns]];
    destruct p as [| |[|p1 ps]];
    destruct c as [| |[|c1 cs]];
    eval_schema; rewrite ?includes_singleton;
    repeat match goal with
           | |- context [Nat.leb ?a ?b] =>
               destruct (Nat.leb_spec a b)
           | |- context [bool_decide ?P] => case_bool_decide
           end;
    simpl length in *;
    (split; [intros Hx; try discriminate Hx | intros [Hx1 Hx2]]);
    try discriminate;
    intuition (try discriminate; try reflexivity; try lia; try congruence).
Qed.

(** X19: no error is ever attached to the e-mail or to the old password:
    the schema has no rule for them. *)
Theorem email_and_old_password_are_not_validated (d : FormDataProps.t) :
  field_error d Email = None /\ field_error d Old_password = None.
Proof.
  destruct d as [n e o p c].
  destruct n as [| |[|n1 ns]];
    destruct p as [| |[|p1 ps]];
    destruct c as [| |[|c1 cs]];
    eval_schema; split_tests; split; reflexivity.
Qed.


(** X18: validation is stable on its own output: validating the validated
    values again gives the same values and the same errors. *)
Theorem validation_is_stable (d : FormDataProps.t) :
  yup.validate profileSchema (fst (yup.validate profileSchema d))
  = yup.validate profileSchema d.
Proof.
  destruct d as [n e o p c].
  destruct n as [| |[|n1 ns]];
    destruct p as [| |[|p1 ps]];
    destruct c as [| |[|c1 cs]];
    eval_schema; reflexivity.
Qed.

(** The values the resolver hands on: the name, the e-mail and the old
    password as they are, the password and its confirmation normalised. *)
Lemma validated_values (d : FormDataProps.t) :
  fst (yup.validate profileSchema d)
  = FormDataProps.mk (FormDataProps.name d) (FormDataProps.email d)
      (FormDataProps.old_password d)
      (normalised (FormDataProps.password d))
      (normalised (FormDataProps.confirm_password d)).
Proof.
  destruct d as [n e o p c].
  destruct n as [| |[|n1 ns]];
    destruct p as [| |[|p1 ps]];
    destruct c as [| |[|c1 cs]];
    reflexivity.
Qed.

(** * Further properties of the submit and of the profile workflow *)

(** X5: a submit whose values fail validation stops at the form: the errors
    are recorded, no call is issued, the store, the session's reference and
    the busy flag are as before. *)
Theorem invalid_submit_changes_nothing (env : Env) (values : FormDataProps.t)
    (st : State) :
  snd (yup.validate profileSchema values) <> [] ->
  fst (press_update env values st) = Normal tt /\
  formErrors (snd (press_update env values st))
  = snd (yup.validate profileSchema values) /\
  calls (snd (press_update env values st)) = calls st /\
  heap (snd (press_update env values st)) = heap st /\
  session_user (snd (press_update env values st)) = session_user st /\
  isUpdating (snd (press_update env values st)) = isUpdating st.
Proof.
  intros Hne. unfold press_update.
  rewrite (handleSubmit_rejects _ values st Hne). repeat split.
Qed.

(** X4: a submit whose values pass validation sends the validated values,
    not the typed ones: the body of the request has the name, the e-mail and
    the old password as typed, and [null] in place of an empty password or
    confirmation. *)
Theorem valid_submit_sends_validated_values (env : Env)
    (values : FormDataProps.t) (st : State) (u : UserDTO.t) :
  snd (yup.validate profileSchema values) = [] ->
  current_user st = Some u ->
  exists rest,
    calls (snd (press_update env values st))
    = calls st
      ++ [ApiPut (lit "/users")
            (FormDataProps.mk (FormDataProps.name values)
               (FormDataProps.email values)
               (FormDataProps.old_password values)
               (normalised (FormDataProps.password values))
               (normalised (FormDataProps.confirm_password values)))]
      ++ rest.
Proof.
  intros Hok Hu. unfold press_update, handleSubmit.
  pose proof (validated_values values) as Hv.
  destruct (yup.validate profileSchema values) as [data errs].
  simpl in Hok, Hv. subst errs data.
  unfold mbind at 1. unfold M_bind at 1. unfold modify at 1.
  set (data := FormDataProps.mk _ _ _ _ _).
  set (st1 := with_formErrors [] st).
  pose proof (profile_run env (session_user st) data st1 u Hu) as Hrun.
  cbv zeta in Hrun. destruct Hrun as (_ & Hrun).
  change (calls st) with (calls st1).
  destruct (api_put env (lit "/users") data) as [[]|e].
  - destruct Hrun as (_ & Hrun).
    destruct (updateUserProfile_settles env _) as [[]|e];
      eexists; rewrite Hrun; reflexivity.
  - destruct Hrun as (Hrun & _). eexists. rewrite Hrun. reflexivity.
Qed.

(** X20: the untouched form of a user with a non-empty name is valid, its
    validated values are the default values, and submitting them leaves the
    store as it is. *)
Theorem untouched_form_is_valid (env : Env) (user : loc) (st : State)
    (u : UserDTO.t) :
  truthy (UserDTO.name u) = true ->
  heap st !! user = Some u ->
  yup.validate profileSchema (defaultValues u) = (defaultValues u, []) /\
  heap (snd (handleProfileUpdate env user (defaultValues u) st)) = heap st.
Proof.
  intros Hn Hh. split.
  - destruct u as [i n e a]. simpl in Hn.
    destruct n as [| |[|n1 ns]]; try discriminate Hn. reflexivity.
  - pose proof (profile_run env user (defaultValues u) st u Hh) as Hrun.
    cbv zeta in Hrun. destruct Hrun as (Hheap & _). rewrite Hheap.
    destruct u as [i n e a]. apply insert_id. exact Hh.
Qed.

(** X7: the profile workflow writes the submitted name into the user object
    of the store whatever the request answers: the write comes before the
    request and is not undone. *)
Theorem update_writes_name_first (env : Env) (user : loc)
    (data : FormDataProps.t) (st : State) (u : UserDTO.t) :
  heap st !! user = Some u ->
  heap (snd (handleProfileUpdate env user data st)) !! user
  = Some (UserDTO.mk (UserDTO.id u) (FormDataProps.name data)
            (UserDTO.email u) (UserDTO.avatar u)) /\
  forall l, l <> user ->
    heap (snd (handleProfileUpdate env user data st)) !! l = heap st !! l.
Proof.
  intros Hh.
  pose proof (profile_run env user data st u Hh) as Hrun.
  cbv zeta in Hrun. destruct Hrun as (Hheap & _). rewrite Hheap. split.
  - apply lookup_insert_eq.
  - intros l Hl. apply lookup_insert_ne. congruence.
Qed.

(** X6: when the request and the session both accept, the profile workflow
    issues the request, hands the session a snapshot that differs from the
    user only in its name, and shows the success toast; the password fields
    of the payload reach no part of the user. *)
Theorem successful_update_renames_user (env : Env) (user : loc)
    (data : FormDataProps.t) (st : State) (u : UserDTO.t) :
  heap st !! user = Some u ->
  api_put env (lit "/users") data = Resolve tt ->
  updateUserProfile_settles env
    (UserDTO.set_name (FormDataProps.name data) u) = Resolve tt ->
  fst (handleProfileUpdate env user data st) = Normal tt /\
  calls (snd (handleProfileUpdate env user data st))
  = calls st
    ++ [ApiPut (lit "/users") data;
        UpdateUserProfile user
          (UserDTO.mk (UserDTO.id u) (FormDataProps.name data)
             (UserDTO.email u) (UserDTO.avatar u));
        ToastShow profile_updated_toast] /\
  session_user (snd (handleProfileUpdate env user data st)) = user.
Proof.
  intros Hh Hput Hset.
  pose proof (profile_run env user data st u Hh) as Hrun.
  cbv zeta in Hrun. rewrite Hput, Hset in Hrun.
  destruct Hrun as (_ & Hsess & Hcalls).
  split; [|split; [exact Hcalls | exact Hsess]].
  unfold handleProfileUpdate. unfold_M. run. rewrite Hh. run.
  rewrite Hput. run. rewrite lookup_insert_eq. run.
  rewrite Hset. reflexivity.
Qed.

(** X9: every run of the profile workflow shows exactly one toast, whatever
    the environment, the payload and the state. *)
Theorem profile_update_shows_one_toast (env : Env) (user : loc)
    (data : FormDataProps.t) (st : State) :
  exists t,
    filter (fun e => is_toast e = true)
      (calls (snd (handleProfileUpdate env user data st)))
    = filter (fun e => is_toast e = true) (calls st) ++ [t].
Proof.
  unfold handleProfileUpdate. unfold_M. run.
  destruct (heap st !! user) as [u|] eqn:Hh; run.
  - destruct (api_put env (lit "/users") data) as [[]|e]; run.
    + rewrite lookup_insert_eq. run.
      destruct (updateUserProfile_settles env _) as [[]|e]; run;
        rewrite ?filter_app; eexists; rewrite <- ?app_assoc; reflexivity.
    + rewrite ?filter_app. eexists. rewrite <- ?app_assoc. reflexivity.
  - rewrite ?filter_app. eexists. reflexivity.
Qed.

(** X8: neither handler lets an error escape: whatever is thrown inside is
    caught, so the promise a handler returns is never rejected. *)
Theorem handlers_catch_every_error (env : Env) (user : loc)
    (data : FormDataProps.t) (st : State) (e : Error) :
  fst (handleUserPhotoSelect env user st) <> Throw e /\
  fst (handleProfileUpdate env user data st) <> Throw e.
Proof.
  split.
  - unfold handleUserPhotoSelect.
    unfold mbind at 1. unfold M_bind at 1. unfold setPhotoIsLoading at 1.
    unfold modify at 1. unfold try_catch_finally.
    match goal with
    | |- context [let '(c, st1) := ?b ?s in _] =>
        destruct (b s) as [[[]| |e'] st1]
    end; cbn; discriminate.
  - unfold handleProfileUpdate, try_catch_finally.
    match goal with
    | |- context [let '(c, st1) := ?b ?s in _] =>
        destruct (b s) as [[[]| |e'] st1]
    end; cbn; discriminate.
Qed.

(** * Further properties of the photo workflow *)

(** X13: when the picker fails, the workflow reports it with one toast (the
    message of an [AppError], the fallback text otherwise), completes
    normally, and neither looks up a size nor issues a request. *)
Theorem failed_picker_is_reported (env : Env) (user : loc) (st : State)
    (e : Error) :
  launchImageLibraryAsync env picker_options = Reject e ->
  fst (handleUserPhotoSelect env user st) = Normal tt /\
  calls (snd (handleUserPhotoSelect env user st))
  = calls st ++ [LaunchImageLibrary picker_options;
                 ToastShow (error_toast photo_fallback e)] /\
  heap (snd (handleUserPhotoSelect env user st)) = heap st /\
  session_user (snd (handleUserPhotoSelect env user st)) = session_user st.
Proof.
  intros Hl. unfold handleUserPhotoSelect. unfold_M. run.
  rewrite Hl. run. repeat split. trace_eq.
Qed.

(** X16: a result that is not cancelled but carries no asset makes the read
    of [assets[0].uri] throw; the workflow catches it and shows the fallback
    toast. *)
Theorem missing_asset_is_reported (env : Env) (user : loc) (st : State)
    (photoSelected : ImagePickerResult) :
  launchImageLibraryAsync env picker_options = Resolve photoSelected ->
  canceled photoSelected = false ->
  assets photoSelected = [] ->
  fst (handleUserPhotoSelect env user st) = Normal tt /\
  calls (snd (handleUserPhotoSelect env user st))
  = calls st ++ [LaunchImageLibrary picker_options;
                 ToastShow {| title := photo_fallback;
                              placement := lit "top";
                              bgColor := lit "red.500" |}] /\
  heap (snd (handleUserPhotoSelect env user st)) = heap st.
Proof.
  intros Hl Hc Ha. unfold handleUserPhotoSelect. unfold_M. run.
  rewrite Hl. run. rewrite Hc, Ha. run. repeat split. trace_eq.
Qed.

(** X15: an asset whose URI is the empty string ends the workflow silently:
    no size lookup, no request, no toast. *)
Theorem empty_uri_does_nothing (env : Env) (user : loc) (st : State)
    (photoSelected : ImagePickerResult) (asset : ImagePickerAsset)
    (others : list ImagePickerAsset) :
  launchImageLibraryAsync env picker_options = Resolve photoSelected ->
  canceled photoSelected = false ->
  assets photoSelected = asset :: others ->
  asset_uri asset = [] ->
  fst (handleUserPhotoSelect env user st) = Normal tt /\
  calls (snd (handleUserPhotoSelect env user st))
  = calls st ++ [LaunchImageLibrary picker_options] /\
  heap (snd (handleUserPhotoSelect env user st)) = heap st.
Proof.
  intros Hl Hc Ha Hu. unfold handleUserPhotoSelect. unfold_M. run.
  rewrite Hl. run. rewrite Hc, Ha. run. rewrite Hu. repeat split.
Qed.

(** X14: when the size lookup fails, the workflow reports it with one toast
    and issues no request; the store is unchanged. *)
Theorem failed_size_lookup_is_reported (env : Env) (user : loc) (st : State)
    (photoSelected : ImagePickerResult) (asset : ImagePickerAsset)
    (others : list ImagePickerAsset) (e : Error) :
  launchImageLibraryAsync env picker_options = Resolve photoSelected ->
  canceled photoSelected = false ->
  assets photoSelected = asset :: others ->
  asset_uri asset <> [] ->
  getInfoAsync env (asset_uri asset) = Reject e ->
  fst (handleUserPhotoSelect env user st) = Normal tt /\
  calls (snd (handleUserPhotoSelect env user st))
  = calls st ++ [LaunchImageLibrary picker_options;
                 GetInfo (asset_uri asset);
                 ToastShow (error_toast photo_fallback e)] /\
  heap (snd (handleUserPhotoSelect env user st)) = heap st.
Proof.
  intros Hl Hc Ha Hu Hg. pose proof (truthy_nonempty _ Hu) as Ht.
  unfold handleUserPhotoSelect. unfold_M. run.
  rewrite Hl. run. rewrite Hc, Ha. run. rewrite Ht, Hg. run.
  repeat split. trace_eq.
Qed.

(** X11: the size limit is inclusive: an image whose reported size is at
    most 5*1024*1024 bytes, that size itself included, passes the check, and
    the call after the size lookup is the upload request. *)
Theorem photo_within_limit_is_uploaded (env : Env) (user : loc) (st : State)
    (photoSelected : ImagePickerResult) (asset : ImagePickerAsset)
    (others : list ImagePickerAsset) (photoInfo : FileInfo) (n : Z)
    (u : UserDTO.t) :
  launchImageLibraryAsync env picker_options = Resolve photoSelected ->
  canceled photoSelected = false ->
  assets photoSelected = asset :: others ->
  asset_uri asset <> [] ->
  getInfoAsync env (asset_uri asset) = Resolve photoInfo ->
  size photoInfo = Some n ->
  (n <= 5 * 1024 * 1024)%Z ->
  heap st !! user = Some u ->
  exists rest,
    calls (snd (handleUserPhotoSelect env user st))
    = calls st ++ [LaunchImageLibrary picker_options;
                   GetInfo (asset_uri asset);
                   ApiPatch (lit "/users/avatar") (upload_form env u asset)
                     multipart_config] ++ rest.
Proof.
  intros Hl Hc Ha Hu Hg Hs Hn Hh.
  assert (Hex : size_exceeds photoInfo = false).
  { apply size_exceeds_within. intros m Hm. congruence. }
  pose proof (upload_run env user st _ _ _ _ _ Hl Hc Ha Hu Hg Hex Hh) as Hrun.
  cbv zeta in Hrun.
  destruct (api_patch env (lit "/users/avatar") (upload_form env u asset)
              multipart_config) as [response|e].
  - destruct Hrun as (_ & _ & Hrun).
    destruct (updateUserProfile_settles env _) as [[]|e];
      eexists; rewrite Hrun; reflexivity.
  - destruct Hrun as (Hrun & _). eexists. rewrite Hrun. reflexivity.
Qed.

(** X12: when the upload request fails, the workflow reports it with one
    toast (the message of an [AppError], the fallback text otherwise), hands
    nothing to the session, and leaves the user object as it was: the avatar
    is written only after the request has resolved. *)
Theorem failed_upload_keeps_user (env : Env) (user : loc) (st : State)
    (photoSelected : ImagePickerResult) (asset : ImagePickerAsset)
    (others : list ImagePickerAsset) (photoInfo : FileInfo) (u : UserDTO.t)
    (e : Error) :
  launchImageLibraryAsync env picker_options = Resolve photoSelected ->
  canceled photoSelected = false ->
  assets photoSelected = asset :: others ->
  asset_uri asset <> [] ->
  getInfoAsync env (asset_uri asset) = Resolve photoInfo ->
  (forall n, size photoInfo = Some n -> (n <= 5 * 1024 * 1024)%Z) ->
  heap st !! user = Some u ->
  api_patch env (lit "/users/avatar") (upload_form env u asset)
    multipart_config = Reject e ->
  calls (snd (handleUserPhotoSelect env user st))
  = calls st ++ [LaunchImageLibrary picker_options;
                 GetInfo (asset_uri asset);
                 ApiPatch (lit "/users/avatar") (upload_form env u asset)
                   multipart_config;
                 ToastShow (error_toast photo_fallback e)] /\
  heap (snd (handleUserPhotoSelect env user st)) = heap st /\
  session_user (snd (handleUserPhotoSelect env user st)) = session_user st.
Proof.
  intros Hl Hc Ha Hu Hg Hs Hh Hp.
  pose proof (size_exceeds_within _ Hs) as Hex.
  pose proof (upload_run env user st _ _ _ _ _ Hl Hc Ha Hu Hg Hex Hh) as Hrun.
  cbv zeta in Hrun. rewrite Hp in Hrun. exact Hrun.
Qed.

(** X10: a run of the photo workflow shows at most one toast, whatever the
    environment and the state. *)
Theorem photo_shows_at_most_one_toast (env : Env) (user : loc) (st : State) :
  exists ts,
    filter (fun e => is_toast e = true)
      (calls (snd (handleUserPhotoSelect env user st)))
    = filter (fun e => is_toast e = true) (calls st) ++ ts /\
    (length ts <= 1)%nat.
Proof.
  assert (Hnone : forall l : list Event, l = l ++ [] /\ (0 <= 1)%nat)
    by (intros l; rewrite app_nil_r; split; [reflexivity | lia]).
  unfold handleUserPhotoSelect. unfold_M. run.
  destruct (launchImageLibraryAsync env picker_options) as [ps|e]; run;
    [|rewrite <- ?app_assoc, ?filter_app; eexists; split;
       [reflexivity | simpl; lia]].
  destruct (canceled ps); run;
    [rewrite ?filter_app; exists []; rewrite !app_nil_r;
     split; [reflexivity | simpl; lia]|].
  destruct (assets ps) as [|asset others]; run;
    [rewrite <- ?app_assoc, ?filter_app; eexists; split;
       [reflexivity | simpl; lia]|].
  destruct (truthy (Str (asset_uri asset))); run;
    [|rewrite ?filter_app; exists []; rewrite !app_nil_r;
      split; [reflexivity | simpl; lia]].
  destruct (getInfoAsync env (asset_uri asset)) as [info|e]; run;
    [|rewrite <- ?app_assoc, ?filter_app; eexists; split;
       [reflexivity | simpl; lia]].
  destruct (size_exceeds info); run;
    [rewrite <- ?app_assoc, ?filter_app; eexists; split;
       [reflexivity | simpl; lia]|].
  destruct (heap st !! user) as [u|] eqn:Hh; run;
    [|rewrite <- ?app_assoc, ?filter_app; eexists; split;
       [reflexivity | simpl; lia]].
  destruct (api_patch env (lit "/users/avatar") (upload_form env u asset)
              multipart_config) as [response|e]; run;
    [|rewrite <- ?app_assoc, ?filter_app; eexists; split;
       [reflexivity | simpl; lia]].
  rewrite Hh. run. rewrite lookup_insert_eq. run.
  destruct (updateUserProfile_settles env _) as [[]|e]; run;
    [rewrite lookup_insert_eq; run|];
    rewrite <- ?app_assoc, ?filter_app; eexists; split;
      try reflexivity; simpl; lia.
Qed.

(** The segments of a string that ends in a separator-free suffix: the
    suffix is the last of them. *)
Lemma split_without_separator (sep : N) (s : jsstring) :
  sep ∉ s -> split sep s = [s].
Proof.
  induction s as [|c s IH]; intros Hs; [reflexivity|].
  apply not_elem_of_cons in Hs as [Hc Hs]. simpl.
  destruct (N.eqb_spec c sep) as [->|_]; [congruence|].
  rewrite (IH Hs). reflexivity.
Qed.

Lemma split_suffix (sep : N) (pre ext : jsstring) :
  sep ∉ ext ->
  exists seg segs, split sep (pre ++ sep :: ext) = seg :: segs ++ [ext].
Proof.
  intros Hext. induction pre as [|c pre (seg & segs & IH)]; simpl.
  - rewrite N.eqb_refl, (split_without_separator _ _ Hext).
    exists [], []. reflexivity.
  - rewrite IH. destruct (c =? sep).
    + exists [], (seg :: segs). reflexivity.
    + exists (c :: seg), segs. reflexivity.
Qed.

Lemma pop_split_suffix (pre ext : jsstring) :
  46 ∉ ext -> pop (split 46 (pre ++ 46 :: ext)) = Str ext.
Proof.
  intros Hext. destruct (split_suffix 46 pre ext Hext) as (seg & segs & ->).
  unfold pop. rewrite app_comm_cons, last_snoc. reflexivity.
Qed.

(** X17: the form of the upload for a URI that ends in [.ext]: one entry,
    under the key [avatar], whose file has the URI as it is, the lower-cased
    [name.ext] as its name and [type/ext] as its type, [ext] being what
    follows the last dot of the URI. *)
Theorem upload_form_of_dotted_uri (env : Env) (u : UserDTO.t)
    (asset : ImagePickerAsset) (pre ext : jsstring) :
  asset_uri asset = pre ++ 46 :: ext ->
  46 ∉ ext ->
  upload_form env u asset
  = [(lit "avatar",
      {| file_name :=
           toLowerCase env (ToString (UserDTO.name u) ++ lit "." ++ ext);
         file_uri := pre ++ 46 :: ext;
         file_type := ToString (asset_type asset) ++ lit "/" ++ ext |})].
Proof.
  intros Huri Hext. unfold upload_form.
  rewrite Huri, (pop_split_suffix pre ext Hext). reflexivity.
Qed.

(** X22: for a URI without a dot, the whole URI stands in for the extension,
    in the name and in the type of the file. *)
Theorem upload_form_of_undotted_uri (env : Env) (u : UserDTO.t)
    (asset : ImagePickerAsset) :
  46 ∉ asset_uri asset ->
  upload_form env u asset
  = [(lit "avatar",
      {| file_name :=
           toLowerCase env
             (ToString (UserDTO.name u) ++ lit "." ++ asset_uri asset);
         file_uri := asset_uri asset;
         file_type :=
           ToString (asset_type asset) ++ lit "/" ++ asset_uri asset |})].
Proof.
  intros Hdot. unfold upload_form.
  rewrite (split_without_separator _ _ Hdot). reflexivity.
Qed.

(** X21: after an upload that resolved with a non-empty avatar, the screen
    shows the photo, not the skeleton, and its source is the server's value
    under [/avatar/] of the base URL. *)
Theorem uploaded_avatar_is_displayed (env : Env) (user : loc) (st : State)
    (photoSelected : ImagePickerResult) (asset : ImagePickerAsset)
    (others : list ImagePickerAsset) (photoInfo : FileInfo) (u : UserDTO.t)
    (response : AxiosResponse) (a : jsstring) (baseURL : val) :
  launchImageLibraryAsync env picker_options = Resolve photoSelected ->
  canceled photoSelected = false ->
  assets photoSelected = asset :: others ->
  asset_uri asset <> [] ->
  getInfoAsync env (asset_uri asset) = Resolve photoInfo ->
  (forall n, size photoInfo = Some n -> (n <= 5 * 1024 * 1024)%Z) ->
  heap st !! user = Some u ->
  api_patch env (lit "/users/avatar") (upload_form env u asset)
    multipart_config = Resolve response ->
  data_avatar (data response) = Str a ->
  a <> [] ->
  exists u',
    heap (snd (handleUserPhotoSelect env user st)) !! user = Some u' /\
    photo_area baseURL (snd (handleUserPhotoSelect env user st)) u'
    = UserPhoto (RemoteImage (ToString baseURL ++ lit "/avatar/" ++ a)).
Proof.
  intros Hl Hc Ha Hu Hg Hs Hh Hp Hav Hne.
  pose proof (size_exceeds_within _ Hs) as Hex.
  pose proof (upload_run env user st _ _ _ _ _ Hl Hc Ha Hu Hg Hex Hh) as Hrun.
  cbv zeta in Hrun. rewrite Hp, Hav in Hrun. destruct Hrun as (Hheap & _).
  exists (UserDTO.set_avatar (Str a) u). split.
  - rewrite Hheap. apply lookup_insert_eq.
  - unfold photo_area.
    assert (Hflag : photoIsLoading (snd (handleUserPhotoSelect env user st))
                    = false).
    { unfold handleUserPhotoSelect.
      unfold mbind at 1. unfold M_bind at 1. unfold setPhotoIsLoading at 1.
      unfold modify at 1. apply finally_clears_photoIsLoading. }
    rewrite Hflag. destruct u as [i n e av].
    destruct a as [|a1 a']; [congruence | reflexivity].
Qed.

(** * The further properties at concrete runs *)

Lemma validation_passes_iff_witness :
  snd (yup.validate profileSchema new_password_form) = [].
Proof.
  apply (validation_passes_iff new_password_form).
  vm_compute. repeat split; try reflexivity; lia.
Defined.

Lemma invalid_submit_changes_nothing_witness :
  fst (press_update offline_env (with_passwords (Str (lit "abc12")) Undefined)
         signed_in) = Normal tt /\
  formErrors
    (snd (press_update offline_env
            (with_passwords (Str (lit "abc12")) Undefined) signed_in))
  = snd (yup.validate profileSchema
           (with_passwords (Str (lit "abc12")) Undefined)) /\
  calls (snd (press_update offline_env
                (with_passwords (Str (lit "abc12")) Undefined) signed_in))
  = calls signed_in /\
  heap (snd (press_update offline_env
               (with_passwords (Str (lit "abc12")) Undefined) signed_in))
  = heap signed_in /\
  session_user
    (snd (press_update offline_env
            (with_passwords (Str (lit "abc12")) Undefined) signed_in))
  = session_user signed_in /\
  isUpdating
    (snd (press_update offline_env
            (with_passwords (Str (lit "abc12")) Undefined) signed_in))
  = isUpdating signed_in.
Proof.
  apply (invalid_submit_changes_nothing offline_env
           (with_passwords (Str (lit "abc12")) Undefined) signed_in).
  vm_compute. discriminate.
Defined.

Lemma valid_submit_sends_validated_values_witness :
  exists rest,
    calls (snd (press_update (picking_env None) cleared_passwords_form
                  signed_in))
    = calls signed_in
      ++ [ApiPut (lit "/users")
            (FormDataProps.mk (Str (lit "Bia")) (Str (lit "ana@gym.io"))
               (Str []) Null Null)]
      ++ rest.
Proof.
  apply (valid_submit_sends_validated_values (picking_env None)
           cleared_passwords_form signed_in ana); reflexivity.
Defined.

Lemma untouched_form_is_valid_witness :
  yup.validate profileSchema (defaultValues ana) = (defaultValues ana, []) /\
  heap (snd (handleProfileUpdate offline_env 0%nat (defaultValues ana)
               signed_in))
  = heap signed_in.
Proof.
  apply (untouched_form_is_valid offline_env 0%nat signed_in ana); reflexivity.
Defined.

Lemma update_writes_name_first_witness :
  heap (snd (handleProfileUpdate offline_env 0%nat rename_to_bia signed_in))
    !! 0%nat
  = Some (UserDTO.mk (Str (lit "1")) (Str (lit "Bia"))
            (Str (lit "ana@gym.io")) Undefined) /\
  forall l, l <> 0%nat ->
    heap (snd (handleProfileUpdate offline_env 0%nat rename_to_bia signed_in))
      !! l
    = heap signed_in !! l.
Proof.
  apply (update_writes_name_first offline_env 0%nat rename_to_bia signed_in
           ana).
  reflexivity.
Defined.

Lemma successful_update_renames_user_witness :
  fst (handleProfileUpdate (picking_env None) 0%nat new_password_form
         signed_in) = Normal tt /\
  calls (snd (handleProfileUpdate (picking_env None) 0%nat new_password_form
                signed_in))
  = calls signed_in
    ++ [ApiPut (lit "/users") new_password_form;
        UpdateUserProfile 0%nat
          (UserDTO.mk (Str (lit "1")) (Str (lit "Bia"))
             (Str (lit "ana@gym.io")) Undefined);
        ToastShow profile_updated_toast] /\
  session_user (snd (handleProfileUpdate (picking_env None) 0%nat
                       new_password_form signed_in)) = 0%nat.
Proof.
  apply (successful_update_renames_user (picking_env None) 0%nat
           new_password_form signed_in ana); reflexivity.
Defined.

Lemma failed_picker_is_reported_witness :
  fst (handleUserPhotoSelect broken_picker_env 0%nat signed_in) = Normal tt /\
  calls (snd (handleUserPhotoSelect broken_picker_env 0%nat signed_in))
  = calls signed_in ++ [LaunchImageLibrary picker_options;
                        ToastShow (error_toast photo_fallback network_error)] /\
  heap (snd (handleUserPhotoSelect broken_picker_env 0%nat signed_in))
  = heap signed_in /\
  session_user (snd (handleUserPhotoSelect broken_picker_env 0%nat signed_in))
  = session_user signed_in.
Proof.
  apply (failed_picker_is_reported broken_picker_env 0%nat signed_in
           network_error).
  reflexivity.
Defined.

Lemma missing_asset_is_reported_witness :
  fst (handleUserPhotoSelect
         (scripted (Resolve picked_nothing) (Resolve (file_of_size None))
            (Resolve avatar_response) (Resolve tt))
         0%nat signed_in) = Normal tt /\
  calls (snd (handleUserPhotoSelect
                (scripted (Resolve picked_nothing)
                   (Resolve (file_of_size None)) (Resolve avatar_response)
                   (Resolve tt))
                0%nat signed_in))
  = calls signed_in ++ [LaunchImageLibrary picker_options;
                        ToastShow {| title := photo_fallback;
                                     placement := lit "top";
                                     bgColor := lit "red.500" |}] /\
  heap (snd (handleUserPhotoSelect
               (scripted (Resolve picked_nothing)
                  (Resolve (file_of_size None)) (Resolve avatar_response)
                  (Resolve tt))
               0%nat signed_in))
  = heap signed_in.
Proof.
  apply (missing_asset_is_reported
           (scripted (Resolve picked_nothing) (Resolve (file_of_size None))
              (Resolve avatar_response) (Resolve tt))
           0%nat signed_in picked_nothing); reflexivity.
Defined.

Lemma empty_uri_does_nothing_witness :
  fst (handleUserPhotoSelect
         (scripted (Resolve picked_without_uri) (Resolve (file_of_size None))
            (Resolve avatar_response) (Resolve tt))
         0%nat signed_in) = Normal tt /\
  calls (snd (handleUserPhotoSelect
                (scripted (Resolve picked_without_uri)
                   (Resolve (file_of_size None)) (Resolve avatar_response)
                   (Resolve tt))
                0%nat signed_in))
  = calls signed_in ++ [LaunchImageLibrary picker_options] /\
  heap (snd (handleUserPhotoSelect
               (scripted (Resolve picked_without_uri)
                  (Resolve (file_of_size None)) (Resolve avatar_response)
                  (Resolve tt))
               0%nat signed_in))
  = heap signed_in.
Proof.
  apply (empty_uri_does_nothing
           (scripted (Resolve picked_without_uri)
              (Resolve (file_of_size None)) (Resolve avatar_response)
              (Resolve tt))
           0%nat signed_in picked_without_uri
           {| asset_uri := []; asset_type := Str (lit "image") |} []);
    reflexivity.
Defined.

Lemma failed_size_lookup_is_reported_witness :
  fst (handleUserPhotoSelect missing_file_env 0%nat signed_in) = Normal tt /\
  calls (snd (handleUserPhotoSelect missing_file_env 0%nat signed_in))
  = calls signed_in ++ [LaunchImageLibrary picker_options;
                        GetInfo (asset_uri photo);
                        ToastShow (error_toast photo_fallback
                                     (OtherError "NotFound"))] /\
  heap (snd (handleUserPhotoSelect missing_file_env 0%nat signed_in))
  = heap signed_in.
Proof.
  apply (failed_size_lookup_is_reported missing_file_env 0%nat signed_in
           picked photo [] (OtherError "NotFound"));
    [reflexivity | reflexivity | reflexivity | vm_compute; discriminate
    | reflexivity].
Defined.

Lemma photo_within_limit_is_uploaded_witness :
  exists rest,
    calls (snd (handleUserPhotoSelect (picking_env (Some 5242880%Z)) 0%nat
                  signed_in))
    = calls signed_in ++ [LaunchImageLibrary picker_options;
                          GetInfo (asset_uri photo);
                          ApiPatch (lit "/users/avatar")
                            (upload_form (picking_env (Some 5242880%Z)) ana
                               photo)
                            multipart_config] ++ rest.
Proof.
  apply (photo_within_limit_is_uploaded (picking_env (Some 5242880%Z)) 0%nat
           signed_in picked photo [] (file_of_size (Some 5242880%Z))
           5242880%Z ana);
    [reflexivity | reflexivity | reflexivity | vm_compute; discriminate
    | reflexivity | reflexivity | lia | reflexivity].
Defined.

Lemma failed_upload_keeps_user_witness :
  calls (snd (handleUserPhotoSelect refusing_env 0%nat signed_in))
  = calls signed_in ++ [LaunchImageLibrary picker_options;
                        GetInfo (asset_uri photo);
                        ApiPatch (lit "/users/avatar")
                          (upload_form refusing_env ana photo)
                          multipart_config;
                        ToastShow (error_toast photo_fallback server_error)] /\
  heap (snd (handleUserPhotoSelect refusing_env 0%nat signed_in))
  = heap signed_in /\
  session_user (snd (handleUserPhotoSelect refusing_env 0%nat signed_in))
  = session_user signed_in.
Proof.
  apply (failed_upload_keeps_user refusing_env 0%nat signed_in picked photo []
           (file_of_size (Some 1048576%Z)) ana server_error);
    [reflexivity | reflexivity | reflexivity | vm_compute; discriminate
    | reflexivity | | reflexivity | reflexivity].
  intros n Hn. simpl in Hn. injection Hn as <-. lia.
Defined.

Lemma upload_form_of_dotted_uri_witness :
  upload_form (picking_env None) ana photo
  = [(lit "avatar",
      {| file_name := lit "ana.jpg";
         file_uri := lit "file:///cache/ImagePicker/photo.JPG";
         file_type := lit "image/JPG" |})].
Proof.
  rewrite (upload_form_of_dotted_uri (picking_env None) ana photo
             (lit "file:///cache/ImagePicker/photo") (lit "JPG"));
    [reflexivity | reflexivity | vm_compute; intros H].
  repeat (apply elem_of_cons in H as [H | H]; [discriminate H|]).
  apply elem_of_nil in H. contradiction.
Defined.

Lemma upload_form_of_undotted_uri_witness :
  upload_form (picking_env None) ana
    {| asset_uri := lit "content://media/42"; asset_type := Undefined |}
  = [(lit "avatar",
      {| file_name := lit "ana.content://media/42";
         file_uri := lit "content://media/42";
         file_type := lit "undefined/content://media/42" |})].
Proof.
  rewrite (upload_form_of_undotted_uri (picking_env None) ana
             {| asset_uri := lit "content://media/42";
                asset_type := Undefined |});
    [reflexivity | vm_compute; intros H].
  repeat (apply elem_of_cons in H as [H | H]; [discriminate H|]).
  apply elem_of_nil in H. contradiction.
Defined.

Lemma uploaded_avatar_is_displayed_witness :
  exists u',
    heap (snd (handleUserPhotoSelect (picking_env (Some 2097152%Z)) 0%nat
                 signed_in)) !! 0%nat = Some u' /\
    photo_area (Str (lit "http://10.0.0.2:3333"))
      (snd (handleUserPhotoSelect (picking_env (Some 2097152%Z)) 0%nat
              signed_in)) u'
    = UserPhoto (RemoteImage (lit "http://10.0.0.2:3333/avatar/u123.png")).
Proof.
  apply (uploaded_avatar_is_displayed (picking_env (Some 2097152%Z)) 0%nat
           signed_in picked photo [] (file_of_size (Some 2097152%Z)) ana
           avatar_response (lit "u123.png") (Str (lit "http://10.0.0.2:3333")));
    [reflexivity | reflexivity | reflexivity | vm_compute; discriminate
    | reflexivity | | reflexivity | reflexivity | reflexivity
    | vm_compute; discriminate].
  intros n Hn. simpl in Hn. injection Hn as <-. lia.
Defined.
